(** * Discord webhook adapter for Alertmanager: embedding and properties

    Shallow embedding of
    [deploy/observability/alertmanager/discord-webhook-adapter.py]:
    [format_alert_for_discord] (alert -> Discord embed) and
    [send_to_discord] (batching, summary line, delivery).

    Modelling choices.
    - A Python [str] is a sequence of Unicode code points, so [pystr] is
      [list N]; [len] is [length] and [s[:n]] is a prefix of code points.
    - A Python [dict] keeps insertion order and has unique keys: it is an
      association list, [items()] being the list itself.
    - An alert is the JSON object Alertmanager sends; its four keys may each
      be absent. [labels] and [annotations] map strings to strings.
    - The code reads the clock, prints, posts over HTTP and may raise: it
      runs in a state-and-exception monad over a [world] that counts clock
      reads and records the events performed, in order.
    - [str.upper] is the interpreter's Unicode case mapping and the outcome
      of [requests.post] is chosen by the network: both are parameters.
    - [WebhookHandler] ([do_POST], [do_GET], [log_message]) runs on a
      connection: the calls it makes on it are recorded in order, beside
      the world. What the library makes of the request (the Content-Length
      header, the decoded body) is given with the request; the answers are
      kept as the objects handed to [json.dumps]. *)

From Stdlib Require Import String Ascii Bool ZArith NArith Lia List.
Import ListNotations.

Set Implicit Arguments.

(* ================================================================== *)
(** ** Python strings *)

Module PyStr.

Definition char := N.
Definition pystr := list char.

(** An ASCII literal of the source, as code points. *)
Definition lit (s : string) : pystr :=
  map N_of_ascii (list_ascii_of_string s).

(** [a == b] on strings. *)
Fixpoint str_eqb (a b : pystr) : bool :=
  match a, b with
  | [], [] => true
  | x :: a', y :: b' => N.eqb x y && str_eqb a' b'
  | _, _ => false
  end.

(** Truthiness of a string: non-empty. *)
Definition truthy (s : pystr) : bool :=
  match s with [] => false | _ :: _ => true end.

(** [l[:stop]] for an integer [stop]; a negative [stop] counts from the
    end, clipped at the start of the list. *)
Definition slice_to {A : Type} (l : list A) (stop : Z) : list A :=
  if (stop <? 0)%Z
  then firstn (Z.to_nat (Z.max 0 (Z.of_nat (length l) + stop))) l
  else firstn (Z.to_nat stop) l.

(** [sep.join(parts)]. *)
Fixpoint join (sep : pystr) (parts : list pystr) : pystr :=
  match parts with
  | [] => []
  | [p] => p
  | p :: rest => p ++ sep ++ join sep rest
  end.

(** Decimal digits of a [Decimal.uint], most significant first. *)
Fixpoint digits (d : Decimal.uint) : pystr :=
  match d with
  | Decimal.Nil => []
  | Decimal.D0 d => 48%N :: digits d
  | Decimal.D1 d => 49%N :: digits d
  | Decimal.D2 d => 50%N :: digits d
  | Decimal.D3 d => 51%N :: digits d
  | Decimal.D4 d => 52%N :: digits d
  | Decimal.D5 d => 53%N :: digits d
  | Decimal.D6 d => 54%N :: digits d
  | Decimal.D7 d => 55%N :: digits d
  | Decimal.D8 d => 56%N :: digits d
  | Decimal.D9 d => 57%N :: digits d
  end.

(** [f"{n}"] for the length of a list. *)
Definition str_of_nat (n : nat) : pystr := digits (Nat.to_uint n).

(** [str.upper] on ASCII text: a-z go to A-Z, every other code point is
    kept. It agrees with Python on strings of ASCII characters and is the
    instance used to run the model on concrete alerts. *)
Definition ascii_upper (s : pystr) : pystr :=
  map (fun c => if ((97 <=? c) && (c <=? 122))%N then (c - 32)%N else c) s.

End PyStr.
Export PyStr.

(* ================================================================== *)
(** ** Python dictionaries with string keys *)

Module PyDict.

Definition dict (V : Type) := list (pystr * V).

(** [d.get(k)]: [None] when the key is absent. *)
Fixpoint get {V : Type} (d : dict V) (k : pystr) : option V :=
  match d with
  | [] => None
  | (k', v) :: d' => if str_eqb k' k then Some v else get d' k
  end.

(** [d.get(k, default)]. *)
Definition get_or {V : Type} (d : dict V) (k : pystr) (default : V) : V :=
  match get d k with Some v => v | None => default end.

(** [k in keys] for a list of keys. *)
Definition mem (k : pystr) (keys : list pystr) : bool :=
  existsb (str_eqb k) keys.

End PyDict.
Export PyDict.

(* ================================================================== *)
(** ** Data model *)

(** The alert object of the Alertmanager webhook. [None] is an absent key. *)
Record Alert := mkAlert {
  alert_status : option pystr;
  alert_labels : option (dict pystr);
  alert_annotations : option (dict pystr);
  alert_startsAt : option pystr
}.

(** One entry of [embed['fields']]. *)
Record Field := mkField {
  name : pystr;
  value : pystr;
  inline : bool
}.

(** The Discord embed built for one alert. *)
Record Embed := mkEmbed {
  title : pystr;
  description : pystr;
  color : Z;
  fields : list Field;
  timestamp : pystr
}.

(** The webhook payload; [content = None] is a payload without that key. *)
Record Payload := mkPayload {
  username : pystr;
  avatar_url : pystr;
  embeds : list Embed;
  content : option pystr
}.

(* ================================================================== *)
(** ** Effects: clock, output, HTTP and exceptions *)

Inductive stream := Stdout | Stderr.

Inductive event :=
| Print (out : stream) (msg : pystr)
| HttpPost (url : pystr) (json : Payload) (timeout_s : Z).

(** [ticks] counts the clock reads made so far, [trace] lists the events
    performed so far, oldest first. *)
Record world := mkWorld {
  ticks : nat;
  trace : list event
}.

Inductive exn := KeyError (key : pystr).

Inductive res (A : Type) :=
| Ret (a : A)
| Raise (e : exn).
Arguments Ret {A} a.
Arguments Raise {A} e.

Definition io (A : Type) := world -> res A * world.

Definition ret {A : Type} (a : A) : io A := fun w => (Ret a, w).

Definition raise {A : Type} (e : exn) : io A := fun w => (Raise e, w).

Definition bind {A B : Type} (m : io A) (k : A -> io B) : io B :=
  fun w =>
    match m w with
    | (Ret a, w') => k a w'
    | (Raise e, w') => (Raise e, w')
    end.

Declare Scope io_scope.
Delimit Scope io_scope with io.
Notation "x <- m ;; k" := (bind m (fun x => k))
  (at level 61, m at next level, right associativity) : io_scope.
Notation "' pat <- m ;; k" := (bind m (fun x => match x with pat => k end))
  (at level 61, pat pattern, m at next level, right associativity) : io_scope.
Notation "m ;; k" := (bind m (fun _ => k))
  (at level 61, right associativity) : io_scope.
Open Scope io_scope.

(** One event performed. *)
Definition emit (e : event) : io unit :=
  fun w => (Ret tt, mkWorld (ticks w) (trace w ++ [e])).

Definition print (out : stream) (msg : pystr) : io unit := emit (Print out msg).

(** [d[k]]: raises [KeyError] when the key is absent. *)
Definition subscript {V : Type} (d : dict V) (k : pystr) : io V :=
  match get d k with
  | Some v => ret v
  | None => raise (KeyError k)
  end.

(** [for x in xs: acc = body(acc, x)]. *)
Fixpoint for_each {A S : Type} (xs : list A) (acc : S) (body : S -> A -> io S)
  : io S :=
  match xs with
  | [] => ret acc
  | x :: xs' => acc' <- body acc x ;; for_each xs' acc' body
  end.

(** What the [try] block around [requests.post] and [raise_for_status]
    ends in: the destination acknowledged, or a [RequestException]
    (transport error, timeout, or the [HTTPError] of an error status)
    with its text. *)
Inductive delivery :=
| Acknowledged
| RequestException (e : pystr).

(* ================================================================== *)
(** ** The adapter *)

(** Color codes for Discord embeds. *)
Definition COLORS : dict Z :=
  [ (lit "critical", 0xFF0000%Z);
    (lit "warning", 0xFFA500%Z);
    (lit "info", 0x00FF00%Z);
    (lit "resolved", 0x00FF00%Z) ].

(** The glyphs of the title prefixes and summary parts. *)
Definition glyph_check : pystr := [0x2705%N].
Definition glyph_fire : pystr := [0x1F525%N].
Definition glyph_warning : pystr := [0x26A0%N; 0xFE0F%N].
Definition glyph_info : pystr := [0x2139%N; 0xFE0F%N].

(** [embed['fields'].append(f)]. *)
Definition append_field (embed : Embed) (f : Field) : Embed :=
  mkEmbed (title embed) (description embed) (color embed)
          (fields embed ++ [f]) (timestamp embed).

(** [payload["content"] = line]. *)
Definition set_content (payload : Payload) (line : pystr) : Payload :=
  mkPayload (username payload) (avatar_url payload) (embeds payload)
            (Some line).

Section Adapter.

(** [str.upper]. *)
Variable upper : pystr -> pystr.

(** [datetime.utcnow().isoformat()] at the n-th read of the clock. *)
Variable clock : nat -> pystr.

(** Outcome of posting a payload to a URL. *)
Variable requests_post : pystr -> Payload -> delivery.

Definition utcnow_isoformat : io pystr :=
  fun w => (Ret (clock (ticks w)), mkWorld (S (ticks w)) (trace w)).

(** Convert Alertmanager alert to Discord embed format. *)
Definition format_alert_for_discord (alert : Alert) : io Embed :=
  let status := match alert_status alert with Some s => s | None => lit "firing" end in
  let labels := match alert_labels alert with Some d => d | None => [] end in
  let annotations := match alert_annotations alert with Some d => d | None => [] end in
  let severity := get_or labels (lit "severity") (lit "info") in
  let monitor := get_or labels (lit "monitor") (lit "unknown") in
  let alert_name := get_or labels (lit "alertname") (lit "Alert") in
  let component := get_or labels (lit "component") (lit "system") in
  (* Determine color *)
  '(color, title_prefix) <-
    (if str_eqb status (lit "resolved") then
       c <- subscript COLORS (lit "resolved") ;;
       ret (c, glyph_check ++ lit " RESOLVED")
     else if str_eqb severity (lit "critical") then
       c <- subscript COLORS (lit "critical") ;;
       ret (c, glyph_fire ++ lit " CRITICAL")
     else if str_eqb severity (lit "warning") then
       c <- subscript COLORS (lit "warning") ;;
       ret (c, glyph_warning ++ lit " WARNING")
     else
       c <- subscript COLORS (lit "info") ;;
       ret (c, glyph_info ++ lit " INFO")) ;;
  (* Build embed *)
  now <- utcnow_isoformat ;;
  let embed :=
    mkEmbed (title_prefix ++ lit ": " ++ alert_name)
            (get_or annotations (lit "summary")
                    (lit "Alert " ++ alert_name ++ lit " is " ++ status))
            color
            []
            (match alert_startsAt alert with Some t => t | None => now end) in
  (* Add monitor info if available *)
  let embed :=
    if negb (str_eqb monitor (lit "unknown"))
    then append_field embed (mkField (lit "Monitor") monitor true)
    else embed in
  (* Add component *)
  let embed :=
    if truthy component
    then append_field embed (mkField (lit "Component") component true)
    else embed in
  (* Add severity *)
  let embed :=
    append_field embed (mkField (lit "Severity") (upper severity) true) in
  (* Add description if available *)
  let embed :=
    match get annotations (lit "description") with
    | Some details =>
        if truthy details
        then append_field embed
               (mkField (lit "Details") (slice_to details 1024) false)
        else embed
    | None => embed
    end in
  (* Add dashboard link if available *)
  let embed :=
    match get annotations (lit "dashboard") with
    | Some dashboard =>
        if truthy dashboard
        then append_field embed
               (mkField (lit "Dashboard")
                        (lit "[View Dashboard](" ++ dashboard ++ lit ")") false)
        else embed
    | None => embed
    end in
  (* Add other labels as a field *)
  let other_labels :=
    filter (fun kv => negb (mem (fst kv)
                              [lit "alertname"; lit "severity";
                               lit "monitor"; lit "component"]))
           labels in
  let embed :=
    match other_labels with
    | [] => embed
    | _ :: _ =>
        let labels_str :=
          join (lit ", ")
               (map (fun kv => fst kv ++ lit "=" ++ snd kv) other_labels) in
        append_field embed
          (mkField (lit "Labels") (slice_to labels_str 1024) false)
    end in
  ret embed.

(** [a.get('status') == s]. *)
Definition status_is (s : pystr) (a : Alert) : bool :=
  match alert_status a with
  | Some s' => str_eqb s' s
  | None => false
  end.

(** Send alerts to Discord webhook. *)
Definition send_to_discord (webhook_url : pystr) (alerts : list Alert)
  : io bool :=
  if negb (truthy webhook_url) then
    print Stderr (lit "ERROR: DISCORD_WEBHOOK_URL not configured") ;;
    ret false
  else
    (* Group alerts by status *)
    let firing := filter (status_is (lit "firing")) alerts in
    let resolved := filter (status_is (lit "resolved")) alerts in
    let embeds : list Embed := [] in
    (* Add firing alerts *)
    embeds <- for_each (slice_to firing 10) embeds
                (fun embeds alert =>
                   e <- format_alert_for_discord alert ;;
                   ret (embeds ++ [e])) ;;
    (* Add resolved alerts *)
    embeds <- for_each (slice_to resolved (10 - Z.of_nat (length embeds))) embeds
                (fun embeds alert =>
                   e <- format_alert_for_discord alert ;;
                   ret (embeds ++ [e])) ;;
    match embeds with
    | [] => ret true
    | _ :: _ =>
        (* Build Discord webhook payload *)
        let payload :=
          mkPayload
            (lit "Hall Monitor Alerts")
            (lit "https://raw.githubusercontent.com/prometheus/prometheus/main/documentation/images/prometheus-logo.svg")
            embeds
            None in
        (* Add summary content *)
        let firing_count := length firing in
        let resolved_count := length resolved in
        let summary_parts : list pystr := [] in
        let summary_parts :=
          if negb (Nat.eqb firing_count 0)
          then summary_parts ++
               [glyph_fire ++ lit " " ++ str_of_nat firing_count ++ lit " alert"
                ++ (if negb (Nat.eqb firing_count 1) then lit "s" else lit "")
                ++ lit " firing"]
          else summary_parts in
        let summary_parts :=
          if negb (Nat.eqb resolved_count 0)
          then summary_parts ++
               [glyph_check ++ lit " " ++ str_of_nat resolved_count
                ++ lit " resolved"]
          else summary_parts in
        let payload :=
          match summary_parts with
          | [] => payload
          | _ :: _ => set_content payload (join (lit " | ") summary_parts)
          end in
        emit (HttpPost webhook_url payload 10) ;;
        match requests_post webhook_url payload with
        | Acknowledged =>
            print Stdout (lit "Successfully sent " ++ str_of_nat (length embeds)
                          ++ lit " alerts to Discord") ;;
            ret true
        | RequestException e =>
            print Stderr (lit "ERROR sending to Discord: " ++ e) ;;
            ret false
        end
    end.

End Adapter.

(** The outbound HTTP calls of a trace, in order. *)
Definition posts (t : list event) : list (pystr * Payload) :=
  flat_map (fun e => match e with
                     | HttpPost u p _ => [(u, p)]
                     | Print _ _ => []
                     end) t.

(** A fresh world: the clock not read yet, nothing performed. *)
Definition w0 : world := mkWorld 0 [].

(** A clock for concrete runs. *)
Definition clock0 (n : nat) : pystr :=
  lit "2024-01-01T00:00:0" ++ str_of_nat n.

(** An alert with every key absent. *)
Definition empty_alert : Alert := mkAlert None None None None.

(* ================================================================== *)
(** ** The specification's statements, in its own words *)

Module Spec.

(** Step 1 of the translator: the values read, with their defaults. *)
Definition status_of (a : Alert) : pystr :=
  match alert_status a with Some s => s | None => lit "firing" end.
Definition labels_of (a : Alert) : dict pystr :=
  match alert_labels a with Some d => d | None => [] end.
Definition annotations_of (a : Alert) : dict pystr :=
  match alert_annotations a with Some d => d | None => [] end.
Definition severity_of (a : Alert) : pystr :=
  get_or (labels_of a) (lit "severity") (lit "info").
Definition monitor_of (a : Alert) : pystr :=
  get_or (labels_of a) (lit "monitor") (lit "unknown").
Definition alertname_of (a : Alert) : pystr :=
  get_or (labels_of a) (lit "alertname") (lit "Alert").
Definition component_of (a : Alert) : pystr :=
  get_or (labels_of a) (lit "component") (lit "system").

(** The four categories of the color table. *)
Inductive category := Critical | Warning | Info | Resolved.

Definition category_key (c : category) : pystr :=
  match c with
  | Critical => lit "critical"
  | Warning => lit "warning"
  | Info => lit "info"
  | Resolved => lit "resolved"
  end.

Definition category_color (c : category) : Z :=
  match c with
  | Critical => 0xFF0000
  | Warning => 0xFFA500
  | Info => 0x00FF00
  | Resolved => 0x00FF00
  end.

Definition category_prefix (c : category) : pystr :=
  match c with
  | Critical => glyph_fire ++ lit " CRITICAL"
  | Warning => glyph_warning ++ lit " WARNING"
  | Info => glyph_info ++ lit " INFO"
  | Resolved => glyph_check ++ lit " RESOLVED"
  end.

(** Step 2: the priority chain, status before severity. *)
Definition priority_chain (status severity : pystr) : category :=
  if str_eqb status (lit "resolved") then Resolved
  else if str_eqb severity (lit "critical") then Critical
  else if str_eqb severity (lit "warning") then Warning
  else Info.

(** Step 4 as the specification words it: the summary when present and
    non-empty, the generated default otherwise. *)
Definition description_nonempty_summary (a : Alert) : pystr :=
  match get (annotations_of a) (lit "summary") with
  | Some (c :: s) => c :: s
  | _ => lit "Alert " ++ alertname_of a ++ lit " is " ++ status_of a
  end.

(** Step 4 as the code has it: the summary whenever the key is present. *)
Definition description_present_summary (a : Alert) : pystr :=
  match get (annotations_of a) (lit "summary") with
  | Some s => s
  | None => lit "Alert " ++ alertname_of a ++ lit " is " ++ status_of a
  end.

(** The labels left for the Labels field. *)
Definition reserved_label (k : pystr) : bool :=
  str_eqb k (lit "alertname") || str_eqb k (lit "severity")
  || str_eqb k (lit "monitor") || str_eqb k (lit "component").

Definition remaining_labels (a : Alert) : dict pystr :=
  filter (fun kv => negb (reserved_label (fst kv))) (labels_of a).

(** Step 6: the six optional fields, each a list of zero or one entry. *)
Definition monitor_field (a : Alert) : list Field :=
  if str_eqb (monitor_of a) (lit "unknown") then []
  else [mkField (lit "Monitor") (monitor_of a) true].

Definition component_field (a : Alert) : list Field :=
  match component_of a with
  | [] => []
  | _ :: _ => [mkField (lit "Component") (component_of a) true]
  end.

Definition severity_field (upper : pystr -> pystr) (a : Alert) : list Field :=
  [mkField (lit "Severity") (upper (severity_of a)) true].

Definition details_field (a : Alert) : list Field :=
  match get (annotations_of a) (lit "description") with
  | Some (c :: d) => [mkField (lit "Details") (firstn 1024 (c :: d)) false]
  | _ => []
  end.

Definition dashboard_field (a : Alert) : list Field :=
  match get (annotations_of a) (lit "dashboard") with
  | Some (c :: d) =>
      [mkField (lit "Dashboard")
               (lit "[View Dashboard](" ++ (c :: d) ++ lit ")") false]
  | _ => []
  end.

Definition labels_field (a : Alert) : list Field :=
  match remaining_labels a with
  | [] => []
  | kvs =>
      [mkField (lit "Labels")
               (firstn 1024
                  (join (lit ", ")
                        (map (fun kv => fst kv ++ lit "=" ++ snd kv) kvs)))
               false]
  end.

Definition card_fields (upper : pystr -> pystr) (a : Alert) : list Field :=
  monitor_field a ++ component_field a ++ severity_field upper a
  ++ details_field a ++ dashboard_field a ++ labels_field a.

Definition field_order : list pystr :=
  [lit "Monitor"; lit "Component"; lit "Severity";
   lit "Details"; lit "Dashboard"; lit "Labels"].

(** [xs] is [ys] with some entries left out, the order kept. *)
Fixpoint subsequence (xs ys : list pystr) : bool :=
  match xs, ys with
  | [], _ => true
  | _ :: _, [] => false
  | x :: xs', y :: ys' =>
      if str_eqb x y then subsequence xs' ys' else subsequence xs ys'
  end.

(** The two status groups of the dispatcher, in input order. *)
Definition firing_of (alerts : list Alert) : list Alert :=
  filter (status_is (lit "firing")) alerts.
Definition resolved_of (alerts : list Alert) : list Alert :=
  filter (status_is (lit "resolved")) alerts.

(** The alerts of the batch: the first min(10, #firing) firing alerts,
    then the first (10 minus that many) resolved alerts. *)
Definition dispatched (alerts : list Alert) : list Alert :=
  let n := Nat.min 10 (length (firing_of alerts)) in
  firstn n (firing_of alerts) ++ firstn (10 - n) (resolved_of alerts).

(** The summary line; [None] is the line left out. *)
Definition firing_part (n : nat) : pystr :=
  glyph_fire ++ lit " " ++ str_of_nat n
  ++ (if Nat.eqb n 1 then lit " alert" else lit " alerts") ++ lit " firing".

Definition resolved_part (n : nat) : pystr :=
  glyph_check ++ lit " " ++ str_of_nat n ++ lit " resolved".

Definition summary_line (firingCount resolvedCount : nat) : option pystr :=
  match firingCount, resolvedCount with
  | O, O => None
  | S _, O => Some (firing_part firingCount)
  | O, S _ => Some (resolved_part resolvedCount)
  | S _, S _ =>
      Some (firing_part firingCount ++ lit " | " ++ resolved_part resolvedCount)
  end.

(** The payload built for a non-empty card sequence. *)
Definition payload_of (alerts : list Alert) (cards : list Embed) : Payload :=
  mkPayload
    (lit "Hall Monitor Alerts")
    (lit "https://raw.githubusercontent.com/prometheus/prometheus/main/documentation/images/prometheus-logo.svg")
    cards
    (summary_line (length (firing_of alerts)) (length (resolved_of alerts))).

(** The documented defaults of the four label keys. *)
Definition label_defaults : list (pystr * pystr) :=
  [ (lit "severity", lit "info");
    (lit "monitor", lit "unknown");
    (lit "alertname", lit "Alert");
    (lit "component", lit "system") ].

(** An alert the dispatcher groups: its status is "firing" or "resolved". *)
Definition grouped (a : Alert) : bool :=
  status_is (lit "firing") a || status_is (lit "resolved") a.

End Spec.
Import Spec.

(** [c] is a card the translator returns for [a]. *)
Definition translates (upper : pystr -> pystr) (clock : nat -> pystr)
  (a : Alert) (c : Embed) : Prop :=
  exists w, format_alert_for_discord upper clock a w
            = (Ret c, mkWorld (S (ticks w)) (trace w)).

(** The network of the concrete runs: every post is acknowledged. *)
Definition always_ack (url : pystr) (p : Payload) : delivery := Acknowledged.

(** Concrete inputs. *)
Definition hook_url : pystr := lit "https://discord.example/api/webhooks/1/x".

Definition firing_alert (nm : string) : Alert :=
  mkAlert (Some (lit "firing")) (Some [(lit "alertname", lit nm)]) None None.

Definition resolved_alert (nm : string) : Alert :=
  mkAlert (Some (lit "resolved")) (Some [(lit "alertname", lit nm)]) None None.

Definition pending_alert : Alert :=
  mkAlert (Some (lit "pending")) (Some [(lit "alertname", lit "Queue")])
          None None.

Definition statusless_alert : Alert :=
  mkAlert None (Some [(lit "alertname", lit "Queue")]) None None.

(** Twelve firing and three resolved alerts, interleaved. *)
Definition batch_12_3 : list Alert :=
  [ firing_alert "f1"; firing_alert "f2"; resolved_alert "r1";
    firing_alert "f3"; firing_alert "f4"; firing_alert "f5";
    resolved_alert "r2"; firing_alert "f6"; firing_alert "f7";
    firing_alert "f8"; firing_alert "f9"; firing_alert "f10";
    resolved_alert "r3"; firing_alert "f11"; firing_alert "f12" ].

(** Three firing and three resolved alerts, interleaved. *)
Definition batch_3_3 : list Alert :=
  [ resolved_alert "r1"; firing_alert "f1"; resolved_alert "r2";
    firing_alert "f2"; firing_alert "f3"; resolved_alert "r3" ].

(** An alert whose monitor label has 1025 characters. *)
Definition long_monitor_alert : Alert :=
  mkAlert None (Some [(lit "monitor", repeat 97%N 1025)]) None None.

(** An alert whose summary annotation is the empty string. *)
Definition empty_summary_alert : Alert :=
  mkAlert None None (Some [(lit "summary", lit "")]) None.

(* ================================================================== *)
(** ** The card and the batch in closed form *)

(** The card of an alert when the clock reads [now]. *)
Definition card_of (upper : pystr -> pystr) (now : pystr) (a : Alert) : Embed :=
  mkEmbed
    (category_prefix (priority_chain (status_of a) (severity_of a))
     ++ lit ": " ++ alertname_of a)
    (description_present_summary a)
    (category_color (priority_chain (status_of a) (severity_of a)))
    (card_fields upper a)
    (match alert_startsAt a with Some t => t | None => now end).

(** The cards of a list of alerts translated one after the other, the
    first one at the [n]-th read of the clock. *)
Fixpoint cards_from (upper : pystr -> pystr) (clock : nat -> pystr)
  (n : nat) (xs : list Alert) : list Embed :=
  match xs with
  | [] => []
  | x :: xs' => card_of upper (clock n) x :: cards_from upper clock (S n) xs'
  end.

(** The cards of the batch built in world [w]. *)
Definition batch_cards (upper : pystr -> pystr) (clock : nat -> pystr)
  (w : world) (alerts : list Alert) : list Embed :=
  cards_from upper clock (ticks w) (dispatched alerts).

(** [xs] is the beginning of [ys]. *)
Definition prefix_of (xs ys : pystr) : Prop := exists rest, ys = xs ++ rest.

(* ================================================================== *)
(** ** The HTTP handler *)

(** The values of the JSON objects the handler answers with. *)
Inductive jvalue :=
| JString (s : pystr)
| JBool (b : bool).

(** What the handler does on its connection, in order; [WfileWrite obj]
    is [self.wfile.write(json.dumps(obj).encode())]. *)
Inductive wire :=
| SendResponse (code : Z)
| SendHeader (keyword value : pystr)
| EndHeaders
| WfileWrite (obj : dict jvalue).

(** The state a handler call runs in: the world of the adapter and what
    has gone to the connection so far. *)
Record conn := mkConn {
  outside : world;
  wire_out : list wire
}.

(** The body of a POST as lines 178-181 see it: reading it, decoding it
    or taking its [alerts] key raises an exception with text [e]
    ([Unreadable]), or the body is a JSON object whose [alerts] key is
    absent or holds a list of alerts ([Webhook]). *)
Inductive body :=
| Unreadable (e : pystr)
| Webhook (alerts : option (list Alert)).

(** A POST as [do_POST] meets it: line 174 turns the Content-Length
    header into an integer, which raises a [ValueError] with text [e]
    when the header is not a number ([BadLength]); otherwise the body is
    read with that length ([Readable]). *)
Inductive request :=
| BadLength (e : pystr)
| Readable (b : body).

(** The exceptions raised inside [do_POST]. *)
Inductive exception :=
| HeaderError (text : pystr)
| BodyError (text : pystr)
| Uncaught (e : exn).

(** [str(e)]; for a [KeyError] it is the key between single quotes. *)
Definition str_exception (e : exception) : pystr :=
  match e with
  | HeaderError text => text
  | BodyError text => text
  | Uncaught (KeyError k) => [39%N] ++ k ++ [39%N]
  end.

Definition handler (A : Type) := conn -> (A + exception) * conn.

Definition h_ret {A : Type} (a : A) : handler A := fun c => (inl a, c).

Definition h_raise {A : Type} (e : exception) : handler A :=
  fun c => (inr e, c).

Definition h_bind {A B : Type} (m : handler A) (k : A -> handler B)
  : handler B :=
  fun c =>
    match m c with
    | (inl a, c') => k a c'
    | (inr e, c') => (inr e, c')
    end.

(** [try: body except Exception as e: on_error(e)]. *)
Definition try_except {A : Type} (body : handler A)
  (on_error : exception -> handler A) : handler A :=
  fun c =>
    match body c with
    | (inl a, c') => (inl a, c')
    | (inr e, c') => on_error e c'
    end.

(** A computation of the adapter, run inside a handler call. *)
Definition lift {A : Type} (m : io A) : handler A :=
  fun c =>
    match m (outside c) with
    | (Ret a, w') => (inl a, mkConn w' (wire_out c))
    | (Raise e, w') => (inr (Uncaught e), mkConn w' (wire_out c))
    end.

Definition to_wire (x : wire) : handler unit :=
  fun c => (inl tt, mkConn (outside c) (wire_out c ++ [x])).

Declare Scope handler_scope.
Delimit Scope handler_scope with handler.
Notation "x <- m ;; k" := (h_bind m (fun x => k))
  (at level 61, m at next level, right associativity) : handler_scope.
Notation "m ;; k" := (h_bind m (fun _ => k))
  (at level 61, right associativity) : handler_scope.

Section Handler.

Variable upper : pystr -> pystr.
Variable clock : nat -> pystr.
Variable requests_post : pystr -> Payload -> delivery.

(** Discord webhook URL from environment. *)
Variable DISCORD_WEBHOOK_URL : pystr.

(** [self.address_string()]. *)
Variable address_string : pystr.

(** [format % args] of the access-log call that [send_response(code)]
    makes through [log_request]. *)
Variable request_log : Z -> pystr.

(** Custom logging. *)
Definition log_message (formatted : pystr) : handler unit :=
  lift (print Stdout (address_string ++ lit " - " ++ formatted)).

(** [self.send_response(code)]: the base class logs the request through
    [log_message], then queues the status line. *)
Definition send_response (code : Z) : handler unit :=
  (log_message (request_log code) ;;
   to_wire (SendResponse code))%handler.

Definition send_header (keyword value : pystr) : handler unit :=
  to_wire (SendHeader keyword value).

Definition end_headers : handler unit := to_wire EndHeaders.

Definition wfile_write_json (obj : dict jvalue) : handler unit :=
  to_wire (WfileWrite obj).

(** Handle POST requests from Alertmanager. *)
Definition do_POST (rq : request) : handler unit :=
  (content <- match rq with
              | BadLength e => h_raise (HeaderError e)
              | Readable b => h_ret b
              end ;;
  try_except
    ((* Parse Alertmanager webhook payload *)
     alerts <- match content with
               | Unreadable e => h_raise (BodyError e)
               | Webhook (Some alerts) => h_ret alerts
               | Webhook None => h_ret []
               end ;;
     lift (print Stdout (lit "Received " ++ str_of_nat (length alerts)
                         ++ lit " alerts from Alertmanager")) ;;
     (* Send to Discord *)
     success <- lift (send_to_discord upper clock requests_post
                        DISCORD_WEBHOOK_URL alerts) ;;
     if success : bool then
       send_response 200 ;;
       send_header (lit "Content-Type") (lit "application/json") ;;
       end_headers ;;
       wfile_write_json [(lit "status", JString (lit "ok"))]
     else
       send_response 500 ;;
       send_header (lit "Content-Type") (lit "application/json") ;;
       end_headers ;;
       wfile_write_json [(lit "status", JString (lit "error"))])%handler
    (fun e =>
       (lift (print Stderr (lit "ERROR processing webhook: "
                            ++ str_exception e)) ;;
        send_response 500 ;;
        send_header (lit "Content-Type") (lit "application/json") ;;
        end_headers ;;
        wfile_write_json [(lit "status", JString (lit "error"));
                          (lit "message", JString (str_exception e))])%handler))%handler.

(** Handle GET requests (health check). *)
Definition do_GET : handler unit :=
  (send_response 200 ;;
   send_header (lit "Content-Type") (lit "application/json") ;;
   end_headers ;;
   wfile_write_json
     [(lit "status", JString (lit "healthy"));
      (lit "service", JString (lit "Discord Webhook Adapter"));
      (lit "webhook_configured", JBool (truthy DISCORD_WEBHOOK_URL))])%handler.

End Handler.

(** A complete answer: status line, content type, end of headers, body. *)
Definition answer (code : Z) (obj : dict jvalue) : list wire :=
  [SendResponse code;
   SendHeader (lit "Content-Type") (lit "application/json");
   EndHeaders;
   WfileWrite obj].

(** The alerts a decoded body hands to the dispatcher. *)
Definition alerts_of (a : option (list Alert)) : list Alert :=
  match a with Some l => l | None => [] end.

(** The world after the line saying how many alerts were received. *)
Definition received (a : option (list Alert)) (w : world) : world :=
  mkWorld (ticks w)
    (trace w ++ [Print Stdout (lit "Received "
                               ++ str_of_nat (length (alerts_of a))
                               ++ lit " alerts from Alertmanager")]).

(** The access-log line of an answer. *)
Definition access_log (address_string : pystr) (request_log : Z -> pystr)
  (code : Z) : event :=
  Print Stdout (address_string ++ lit " - " ++ request_log code).

(** Concrete connection data. *)
Definition peer0 : pystr := lit "10.0.0.7".

Definition request_log0 (code : Z) : pystr :=
  [34%N] ++ lit "POST / HTTP/1.1" ++ [34%N]
  ++ (if (code =? 200)%Z then lit " 200 -" else lit " 500 -").

(** The network that refuses every post. *)
Definition always_refuse (url : pystr) (p : Payload) : delivery :=
  RequestException (lit "connection refused").

(** An alert that carries its own timestamp. *)
Definition stamped_alert : Alert :=
  mkAlert (Some (lit "firing"))
          (Some [(lit "alertname", lit "DiskFull");
                 (lit "severity", lit "critical");
                 (lit "instance", lit "db1")])
          (Some [(lit "description", lit "Disk is filling")])
          (Some (lit "2024-05-05T10:00:00Z")).

(* ================================================================== *)
(** ** Basic facts *)

Lemma str_eqb_refl (a : pystr) : str_eqb a a = true.
Proof.
  induction a as [|x a IH]; simpl; [reflexivity|].
  now rewrite N.eqb_refl.
Qed.

Lemma str_eqb_eq (a b : pystr) : str_eqb a b = true <-> a = b.
Proof.
  split.
  - revert b.
    induction a as [|x a IH]; intros [|y b]; simpl; try discriminate; auto.
    intros H. apply andb_true_iff in H as [Hx Hr].
    apply N.eqb_eq in Hx. f_equal; auto.
  - intros ->. apply str_eqb_refl.
Qed.

Lemma str_eqb_neq (a b : pystr) : str_eqb a b = false <-> a <> b.
Proof.
  rewrite <- str_eqb_eq. destruct (str_eqb a b); split; congruence.
Qed.

Lemma slice_to_nonneg {A : Type} (l : list A) (n : nat) :
  slice_to l (Z.of_nat n) = firstn n l.
Proof.
  unfold slice_to.
  destruct (Z.ltb_spec (Z.of_nat n) 0); [lia|].
  now rewrite Nat2Z.id.
Qed.

Lemma mem_reserved (k : pystr) :
  mem k [lit "alertname"; lit "severity"; lit "monitor"; lit "component"]
  = reserved_label k.
Proof.
  unfold mem, reserved_label, existsb.
  now rewrite orb_false_r, !orb_assoc.
Qed.

(* ================================================================== *)
(** ** The translator in closed form *)

Section Translator.

Variable upper : pystr -> pystr.
Variable clock : nat -> pystr.

Lemma format_alert_closed (a : Alert) (w : world) :
  format_alert_for_discord upper clock a w
  = (Ret (mkEmbed
            (category_prefix (priority_chain (status_of a) (severity_of a))
             ++ lit ": " ++ alertname_of a)
            (description_present_summary a)
            (category_color (priority_chain (status_of a) (severity_of a)))
            (card_fields upper a)
            (match alert_startsAt a with
             | Some t => t
             | None => clock (ticks w)
             end)),
     mkWorld (S (ticks w)) (trace w)).
Proof.
  unfold format_alert_for_discord.
  fold (status_of a) (labels_of a) (annotations_of a).
  fold (severity_of a) (monitor_of a) (alertname_of a) (component_of a).
  unfold priority_chain, card_fields, description_present_summary,
    monitor_field, component_field, severity_field, details_field,
    dashboard_field, labels_field, remaining_labels, get_or.
  assert (Hf : forall l : dict pystr,
             filter (fun kv => negb (mem (fst kv)
                      [lit "alertname"; lit "severity";
                       lit "monitor"; lit "component"])) l
             = filter (fun kv => negb (reserved_label (fst kv))) l).
  { intros l. apply filter_ext. intros kv. now rewrite mem_reserved. }
  rewrite Hf. clear Hf.
  change (subscript COLORS (lit "resolved")) with (@ret Z 0x00FF00%Z).
  change (subscript COLORS (lit "critical")) with (@ret Z 0xFF0000%Z).
  change (subscript COLORS (lit "warning")) with (@ret Z 0xFFA500%Z).
  change (subscript COLORS (lit "info")) with (@ret Z 0x00FF00%Z).
  destruct (filter _ (labels_of a)) as [|kv kvs];
  destruct (get (annotations_of a) (lit "dashboard")) as [[|c1 d1]|];
  destruct (get (annotations_of a) (lit "description")) as [[|c2 d2]|];
  destruct (component_of a) as [|c3 d3];
  destruct (str_eqb (monitor_of a) (lit "unknown"));
  (destruct (str_eqb (status_of a) (lit "resolved"));
   [|destruct (str_eqb (severity_of a) (lit "critical"));
     [|destruct (str_eqb (severity_of a) (lit "warning"))]]);
  reflexivity.
Qed.

Lemma translates_closed (a : Alert) (c : Embed) :
  translates upper clock a c ->
  title c = category_prefix (priority_chain (status_of a) (severity_of a))
            ++ lit ": " ++ alertname_of a
  /\ description c = description_present_summary a
  /\ color c = category_color (priority_chain (status_of a) (severity_of a))
  /\ fields c = card_fields upper a.
Proof.
  intros [w Hw]. rewrite format_alert_closed in Hw.
  injection Hw as <-. simpl. auto.
Qed.

(** The loop body of the dispatcher: translate and append. *)
Lemma for_each_format (xs : list Alert) (acc : list Embed) (w : world) :
  exists cards,
    for_each xs acc
      (fun embeds alert =>
         e <- format_alert_for_discord upper clock alert ;;
         ret (embeds ++ [e])) w
    = (Ret (acc ++ cards), mkWorld (ticks w + length xs) (trace w))
    /\ Forall2 (translates upper clock) xs cards.
Proof.
  revert acc w.
  induction xs as [|x xs IH]; intros acc w.
  - exists []. split; [|constructor].
    simpl. unfold ret. rewrite app_nil_r, Nat.add_0_r. now destruct w.
  - simpl for_each. unfold bind at 1. unfold bind at 1.
    rewrite format_alert_closed. unfold ret at 1.
    destruct (IH (acc ++ [mkEmbed
            (category_prefix (priority_chain (status_of x) (severity_of x))
             ++ lit ": " ++ alertname_of x)
            (description_present_summary x)
            (category_color (priority_chain (status_of x) (severity_of x)))
            (card_fields upper x)
            (match alert_startsAt x with
             | Some t => t
             | None => clock (ticks w)
             end)]) (mkWorld (S (ticks w)) (trace w)))
      as (cards & Hrun & Hall).
    eexists (_ :: cards). split.
    + rewrite Hrun. simpl. rewrite <- app_assoc. simpl.
      now rewrite Nat.add_succ_r.
    + constructor; [|exact Hall].
      exists w. apply format_alert_closed.
Qed.

End Translator.

(* ================================================================== *)
(** ** The dispatcher in closed form *)

Lemma dispatched_firstn (alerts : list Alert) :
  dispatched alerts
  = firstn 10 (firing_of alerts)
    ++ firstn (10 - length (firstn 10 (firing_of alerts))) (resolved_of alerts).
Proof.
  unfold dispatched. rewrite length_firstn.
  f_equal.
  destruct (Nat.min_spec 10 (length (firing_of alerts))) as [[H ->]|[H ->]].
  - reflexivity.
  - now rewrite !firstn_all2 by lia.
Qed.

Lemma dispatched_length (alerts : list Alert) :
  length (dispatched alerts) <= 10.
Proof.
  unfold dispatched. rewrite length_app, !length_firstn. lia.
Qed.

Lemma summary_parts_closed (n m : nat) (p : Payload) :
  let parts1 :=
    if negb (Nat.eqb n 0)
    then [] ++
         [glyph_fire ++ lit " " ++ str_of_nat n ++ lit " alert"
          ++ (if negb (Nat.eqb n 1) then lit "s" else lit "")
          ++ lit " firing"]
    else [] in
  let parts2 :=
    if negb (Nat.eqb m 0)
    then parts1
         ++ [glyph_check ++ lit " " ++ str_of_nat m ++ lit " resolved"]
    else parts1 in
  content p = None ->
  match parts2 with
  | [] => p
  | _ :: _ => set_content p (join (lit " | ") parts2)
  end = mkPayload (username p) (avatar_url p) (embeds p) (summary_line n m).
Proof.
  unfold summary_line, firing_part, resolved_part, set_content.
  destruct p as [u a e c]. cbn [content username avatar_url embeds].
  intros ->.
  destruct n as [|[|n]], m as [|m]; reflexivity.
Qed.

Section Dispatcher.

Variable upper : pystr -> pystr.
Variable clock : nat -> pystr.
Variable requests_post : pystr -> Payload -> delivery.

Lemma send_to_discord_closed (url : pystr) (alerts : list Alert) (w : world) :
  url <> [] ->
  exists cards,
    Forall2 (translates upper clock) (dispatched alerts) cards
    /\ send_to_discord upper clock requests_post url alerts w
       = match cards with
         | [] => (Ret true, w)
         | _ :: _ =>
             let p := payload_of alerts cards in
             match requests_post url p with
             | Acknowledged =>
                 (Ret true,
                  mkWorld (ticks w + length cards)
                    (trace w ++
                     [HttpPost url p 10;
                      Print Stdout (lit "Successfully sent "
                                    ++ str_of_nat (length cards)
                                    ++ lit " alerts to Discord")]))
             | RequestException e =>
                 (Ret false,
                  mkWorld (ticks w + length cards)
                    (trace w ++
                     [HttpPost url p 10;
                      Print Stderr (lit "ERROR sending to Discord: " ++ e)]))
             end
         end.
Proof.
  intros Hurl.
  unfold send_to_discord.
  destruct url as [|u0 url']; [congruence|]. cbn [truthy negb].
  fold (firing_of alerts) (resolved_of alerts).
  change 10%Z with (Z.of_nat 10). rewrite slice_to_nonneg.
  pose proof (dispatched_firstn alerts) as Hd.
  remember (firstn 10 (firing_of alerts)) as F eqn:HF.
  assert (HlenF : length F <= 10) by (subst F; rewrite length_firstn; lia).
  destruct (for_each_format upper clock F [] w) as (cards1 & Hrun1 & Hall1).
  unfold bind at 1. rewrite Hrun1. cbn [app].
  pose proof (Forall2_length Hall1) as Hlen1.
  replace (Z.of_nat 10 - Z.of_nat (length cards1))%Z
    with (Z.of_nat (10 - length cards1)) by lia.
  rewrite slice_to_nonneg. rewrite <- Hlen1.
  remember (firstn (10 - length F) (resolved_of alerts)) as R eqn:HR.
  destruct (for_each_format upper clock R cards1
              (mkWorld (ticks w + length F) (trace w)))
    as (cards2 & Hrun2 & Hall2).
  unfold bind at 1. rewrite Hrun2. cbn [ticks trace].
  pose proof (Forall2_length Hall2) as Hlen2.
  exists (cards1 ++ cards2). split.
  - rewrite Hd. now apply Forall2_app.
  - assert (Hticks : ticks w + length F + length R
                     = ticks w + length (cards1 ++ cards2))
      by (rewrite length_app; lia).
    rewrite Hticks.
    destruct (cards1 ++ cards2) as [|c cs] eqn:Hcards.
    + unfold ret. cbn [length]. rewrite Nat.add_0_r. now destruct w.
    + cbv zeta. unfold payload_of.
      match goal with
      | |- context [HttpPost _ ?p _] =>
          replace p
            with (mkPayload
                    (lit "Hall Monitor Alerts")
                    (lit "https://raw.githubusercontent.com/prometheus/prometheus/main/documentation/images/prometheus-logo.svg")
                    (c :: cs)
                    (summary_line (length (firing_of alerts))
                                  (length (resolved_of alerts))))
            by (symmetry;
                exact (summary_parts_closed
                         (length (firing_of alerts))
                         (length (resolved_of alerts))
                         (mkPayload _ _ (c :: cs) None) eq_refl))
      end.
      unfold bind, print, emit, ret. cbn [ticks trace].
      destruct (requests_post _ _); cbn [ticks trace];
        rewrite <- app_assoc; reflexivity.
Qed.

End Dispatcher.

Lemma in_firstn {A : Type} (n : nat) (l : list A) (x : A) :
  In x (firstn n l) -> In x l.
Proof.
  intros H. rewrite <- (firstn_skipn n l). apply in_or_app. now left.
Qed.

Lemma posts_app (t1 t2 : list event) : posts (t1 ++ t2) = posts t1 ++ posts t2.
Proof. unfold posts. apply flat_map_app. Qed.

Lemma get_app {V : Type} (d1 d2 : dict V) (k : pystr) :
  get (d1 ++ d2) k
  = match get d1 k with Some v => Some v | None => get d2 k end.
Proof.
  induction d1 as [|[k' v] d1 IH]; simpl; [reflexivity|].
  destruct (str_eqb k' k); auto.
Qed.

Lemma filter_grouped (s : pystr) (alerts : list Alert) :
  s = lit "firing" \/ s = lit "resolved" ->
  filter (status_is s) (filter grouped alerts) = filter (status_is s) alerts.
Proof.
  intros Hs.
  induction alerts as [|a alerts IH]; simpl; [reflexivity|].
  unfold grouped at 1.
  destruct (status_is (lit "firing") a) eqn:Hf;
    destruct (status_is (lit "resolved") a) eqn:Hr; simpl;
    destruct Hs as [-> | ->]; rewrite ?Hf, ?Hr, IH; reflexivity.
Qed.

(* ================================================================== *)
(** ** Properties of the translator *)

Section TranslatorProperties.

Variable upper : pystr -> pystr.
Variable clock : nat -> pystr.

(** Every field of a card comes from one of the six sources. *)
Lemma card_fields_cases (a : Alert) (f : Field) :
  In f (card_fields upper a) ->
  f = mkField (lit "Monitor") (monitor_of a) true
  \/ f = mkField (lit "Component") (component_of a) true
  \/ f = mkField (lit "Severity") (upper (severity_of a)) true
  \/ (exists d, f = mkField (lit "Details") (firstn 1024 d) false)
  \/ (exists d, f = mkField (lit "Dashboard")
                     (lit "[View Dashboard](" ++ d ++ lit ")") false)
  \/ (exists s, f = mkField (lit "Labels") (firstn 1024 s) false).
Proof.
  unfold card_fields, monitor_field, component_field, severity_field,
    details_field, dashboard_field, labels_field.
  rewrite !in_app_iff.
  intros [H|[H|[H|[H|[H|H]]]]].
  - destruct (str_eqb _ _); [destruct H|].
    destruct H as [<-|[]]. auto.
  - destruct (component_of a); [destruct H|].
    destruct H as [<-|[]]. auto.
  - destruct H as [<-|[]]. auto.
  - destruct (get _ _) as [[|c d]|]; try destruct H.
    + subst f. right. right. right. left. now exists (c :: d).
    + destruct H.
  - destruct (get _ _) as [[|c d]|]; try destruct H.
    + subst f. do 4 right. left. now exists (c :: d).
    + destruct H.
  - destruct (remaining_labels a) as [|kv kvs]; [destruct H|].
    destruct H as [<-|[]]. do 5 right. eexists. reflexivity.
Qed.

Lemma get_or_snoc_same (l : dict pystr) (k d : pystr) :
  get l k = None -> get_or (l ++ [(k, d)]) k d = get_or l k d.
Proof.
  intros H. unfold get_or. rewrite get_app, H. simpl.
  now rewrite str_eqb_refl.
Qed.

Lemma get_snoc_other {V : Type} (l : dict V) (k k' : pystr) (d : V) :
  str_eqb k k' = false -> get (l ++ [(k, d)]) k' = get l k'.
Proof.
  intros H. rewrite get_app. simpl. rewrite H. now destruct (get l k').
Qed.

Lemma remaining_snoc (l : dict pystr) (k d : pystr) :
  reserved_label k = true ->
  filter (fun kv => negb (reserved_label (fst kv))) (l ++ [(k, d)])
  = filter (fun kv => negb (reserved_label (fst kv))) l.
Proof.
  intros H. rewrite filter_app. simpl. rewrite H. simpl. apply app_nil_r.
Qed.

(** Adding a reserved label with its default value, when the key is
    absent, changes nothing in the card. *)
Lemma default_label_explicit (s : option pystr) (l : dict pystr)
    (an : option (dict pystr)) (t : option pystr) (k d : pystr) (w : world) :
  In (k, d) label_defaults ->
  get l k = None ->
  format_alert_for_discord upper clock (mkAlert s (Some (l ++ [(k, d)])) an t) w
  = format_alert_for_discord upper clock (mkAlert s (Some l) an t) w.
Proof.
  intros Hin Hnone.
  rewrite !format_alert_closed.
  unfold card_fields, description_present_summary, monitor_field,
    component_field, severity_field, details_field, dashboard_field,
    labels_field, remaining_labels, severity_of, monitor_of, alertname_of,
    component_of, status_of, labels_of, annotations_of.
  cbn [alert_status alert_labels alert_annotations alert_startsAt].
  unfold label_defaults in Hin.
  destruct Hin as [E|[E|[E|[E|[]]]]]; injection E as <- <-;
    rewrite remaining_snoc by reflexivity;
    rewrite (@get_or_snoc_same _ _ _ Hnone);
    unfold get_or; rewrite !get_snoc_other by reflexivity;
    reflexivity.
Qed.

(** C1 at its failing input: a monitor label of 1025 characters reaches
    the card as a Monitor value of 1025 characters, above the limit of
    1024. The sibling paths do enforce the limit: the values of the
    Details and Labels fields never exceed 1024 characters on any alert,
    and a longer description or label list is kept, cut to exactly 1024
    characters. *)
Theorem C1_monitor_value_exceeds_limit (w : world) :
  (exists card f,
      fst (format_alert_for_discord upper clock long_monitor_alert w) = Ret card
      /\ In f (fields card)
      /\ name f = lit "Monitor"
      /\ length (value f) = 1025)
  /\ (forall alert card f,
        fst (format_alert_for_discord upper clock alert w) = Ret card ->
        In f (fields card) ->
        name f = lit "Details" \/ name f = lit "Labels" ->
        length (value f) <= 1024)
  /\ (forall alert card d,
        fst (format_alert_for_discord upper clock alert w) = Ret card ->
        get (annotations_of alert) (lit "description") = Some d ->
        1024 < length d ->
        In (mkField (lit "Details") (firstn 1024 d) false) (fields card)
        /\ length (firstn 1024 d) = 1024)
  /\ (forall alert card,
        fst (format_alert_for_discord upper clock alert w) = Ret card ->
        let labels_str :=
          join (lit ", ")
               (map (fun kv => fst kv ++ lit "=" ++ snd kv)
                    (remaining_labels alert)) in
        1024 < length labels_str ->
        In (mkField (lit "Labels") (firstn 1024 labels_str) false)
           (fields card)
        /\ length (firstn 1024 labels_str) = 1024).
Proof.
  split; [|split; [|split]].
  - rewrite format_alert_closed.
    eexists. exists (mkField (lit "Monitor") (repeat 97%N 1025) true).
    split; [reflexivity|]. split; [|split].
    + cbn [fields]. unfold card_fields. apply in_or_app. left.
      vm_compute. now left.
    + reflexivity.
    + cbn [value]. apply repeat_length.
  - intros alert card f Hrun Hin Hname.
    rewrite format_alert_closed in Hrun. cbn [fst] in Hrun.
    injection Hrun as <-. cbn [fields] in Hin.
    apply card_fields_cases in Hin.
    destruct Hin as [->|[->|[->|[[d ->]|[[d ->]|[s ->]]]]]];
      cbn [name value] in *;
      try (destruct Hname as [Hname|Hname];
           vm_compute in Hname; discriminate);
      rewrite length_firstn; lia.
  - intros alert card d Hrun Hget Hlen.
    rewrite format_alert_closed in Hrun. cbn [fst] in Hrun.
    injection Hrun as <-. cbn [fields]. split.
    + unfold card_fields. rewrite !in_app_iff. do 3 right. left.
      unfold details_field. rewrite Hget.
      destruct d as [|c d]; [cbn [length] in Hlen; lia|]. now left.
    + rewrite length_firstn. lia.
  - intros alert card Hrun labels_str Hlen.
    rewrite format_alert_closed in Hrun. cbn [fst] in Hrun.
    injection Hrun as <-. cbn [fields]. split.
    + unfold card_fields. rewrite !in_app_iff. do 5 right.
      unfold labels_field. subst labels_str.
      destruct (remaining_labels alert) as [|kv kvs];
        [cbn [map join length] in Hlen; lia|]. now left.
    + rewrite length_firstn. lia.
Qed.

(** C3: the color and the title prefix follow the priority chain
    resolved status, then critical severity, then warning severity, then
    info; a resolved alert gets the resolved color and prefix whatever its
    severity label is. *)
Theorem C3_priority_chain (alert : Alert) (w : world) :
  exists card,
    fst (format_alert_for_discord upper clock alert w) = Ret card
    /\ (status_of alert = lit "resolved" ->
        color card = 0x00FF00%Z
        /\ title card = (glyph_check ++ lit " RESOLVED")
                        ++ lit ": " ++ alertname_of alert)
    /\ (status_of alert <> lit "resolved" ->
        severity_of alert = lit "critical" ->
        color card = 0xFF0000%Z
        /\ title card = (glyph_fire ++ lit " CRITICAL")
                        ++ lit ": " ++ alertname_of alert)
    /\ (status_of alert <> lit "resolved" ->
        severity_of alert <> lit "critical" ->
        severity_of alert = lit "warning" ->
        color card = 0xFFA500%Z
        /\ title card = (glyph_warning ++ lit " WARNING")
                        ++ lit ": " ++ alertname_of alert)
    /\ (status_of alert <> lit "resolved" ->
        severity_of alert <> lit "critical" ->
        severity_of alert <> lit "warning" ->
        color card = 0x00FF00%Z
        /\ title card = (glyph_info ++ lit " INFO")
                        ++ lit ": " ++ alertname_of alert).
Proof.
  rewrite format_alert_closed. eexists. split; [reflexivity|].
  cbn [color title]. unfold priority_chain.
  destruct (str_eqb (status_of alert) (lit "resolved")) eqn:Hs;
    [apply str_eqb_eq in Hs | apply str_eqb_neq in Hs];
  (destruct (str_eqb (severity_of alert) (lit "critical")) eqn:Hc;
    [apply str_eqb_eq in Hc | apply str_eqb_neq in Hc]);
  (destruct (str_eqb (severity_of alert) (lit "warning")) eqn:Hw;
    [apply str_eqb_eq in Hw | apply str_eqb_neq in Hw]);
  repeat split; intros; try congruence; try reflexivity;
    try (rewrite Hc in Hw; vm_compute in Hw; discriminate).
Qed.

(** C4: the translator returns a card for every alert and raises nothing;
    an absent status reads as "firing", absent labels or annotations as
    empty mappings, an absent reserved label as its documented default
    (severity "info", monitor "unknown", alertname "Alert", component
    "system"), an absent startsAt as the clock reading. *)
Theorem C4_translate_total (alert : Alert) (w : world) :
  (exists card,
      format_alert_for_discord upper clock alert w
      = (Ret card, mkWorld (S (ticks w)) (trace w)))
  /\ (forall l an t,
        format_alert_for_discord upper clock (mkAlert None l an t) w
        = format_alert_for_discord upper clock
            (mkAlert (Some (lit "firing")) l an t) w)
  /\ (forall s an t,
        format_alert_for_discord upper clock (mkAlert s None an t) w
        = format_alert_for_discord upper clock (mkAlert s (Some []) an t) w)
  /\ (forall s l t,
        format_alert_for_discord upper clock (mkAlert s l None t) w
        = format_alert_for_discord upper clock (mkAlert s l (Some []) t) w)
  /\ (forall s l an t k d,
        In (k, d) label_defaults ->
        get l k = None ->
        format_alert_for_discord upper clock
          (mkAlert s (Some (l ++ [(k, d)])) an t) w
        = format_alert_for_discord upper clock (mkAlert s (Some l) an t) w)
  /\ (forall s l an,
        exists card,
          fst (format_alert_for_discord upper clock (mkAlert s l an None) w)
          = Ret card
          /\ timestamp card = clock (ticks w))
  /\ fst (format_alert_for_discord upper clock empty_alert w)
     = Ret (mkEmbed (glyph_info ++ lit " INFO: Alert")
                    (lit "Alert Alert is firing")
                    0x00FF00%Z
                    [mkField (lit "Component") (lit "system") true;
                     mkField (lit "Severity") (upper (lit "info")) true]
                    (clock (ticks w))).
Proof.
  split; [eexists; apply format_alert_closed|].
  split; [intros; rewrite !format_alert_closed; reflexivity|].
  split; [intros; rewrite !format_alert_closed; reflexivity|].
  split; [intros; rewrite !format_alert_closed; reflexivity|].
  split; [intros; now apply default_label_explicit|].
  split.
  - intros. rewrite format_alert_closed. eexists. split; reflexivity.
  - rewrite format_alert_closed. reflexivity.
Qed.

(** C5, as the code has it: the description is the summary annotation
    whenever that key is present, the empty string included, and the
    generated default "Alert <alertname> is <status>" when it is absent. *)
Theorem C5_description_present_summary (alert : Alert) (w : world) :
  exists card,
    fst (format_alert_for_discord upper clock alert w) = Ret card
    /\ description card
       = match get (annotations_of alert) (lit "summary") with
         | Some s => s
         | None =>
             lit "Alert " ++ alertname_of alert ++ lit " is " ++ status_of alert
         end.
Proof.
  rewrite format_alert_closed. eexists. split; reflexivity.
Qed.

(** C6: the color of a card is read from the table [COLORS], which has
    four entries, one for each of critical, warning, info and resolved. *)
Theorem C6_color_table (alert : Alert) (w : world) :
  map fst COLORS = map category_key [Critical; Warning; Info; Resolved]
  /\ length COLORS = 4
  /\ (forall cat, get COLORS (category_key cat) = Some (category_color cat))
  /\ exists card cat,
       fst (format_alert_for_discord upper clock alert w) = Ret card
       /\ get COLORS (category_key cat) = Some (color card).
Proof.
  split; [reflexivity|]. split; [reflexivity|].
  split; [intros []; reflexivity|].
  rewrite format_alert_closed.
  eexists. exists (priority_chain (status_of alert) (severity_of alert)).
  split; [reflexivity|]. cbn [color].
  destruct (priority_chain _ _); reflexivity.
Qed.

(** C9: the fields are appended in the order Monitor, Component, Severity,
    Details, Dashboard, Labels, each only when its source is there:
    Monitor unless the monitor is "unknown", Component when non-empty,
    Severity always and uppercased, Details from a non-empty description
    annotation, Dashboard as a "View Dashboard" markdown link, Labels from
    the labels other than the four reserved keys as "k=v" joined by ", ". *)
Theorem C9_field_order (alert : Alert) (w : world) :
  exists card,
    fst (format_alert_for_discord upper clock alert w) = Ret card
    /\ fields card
       = monitor_field alert ++ component_field alert
         ++ severity_field upper alert ++ details_field alert
         ++ dashboard_field alert ++ labels_field alert
    /\ subsequence (map name (fields card)) field_order = true
    /\ In (mkField (lit "Severity") (upper (severity_of alert)) true)
          (fields card).
Proof.
  rewrite format_alert_closed. eexists. split; [reflexivity|].
  cbn [fields]. unfold card_fields. split; [reflexivity|]. split.
  - unfold monitor_field, component_field, severity_field, details_field,
      dashboard_field, labels_field.
    destruct (str_eqb (monitor_of alert) (lit "unknown"));
    destruct (component_of alert);
    destruct (get (annotations_of alert) (lit "description")) as [[|? ?]|];
    destruct (get (annotations_of alert) (lit "dashboard")) as [[|? ?]|];
    destruct (remaining_labels alert);
    reflexivity.
  - rewrite !in_app_iff. right. right. left. now left.
Qed.

End TranslatorProperties.

(** C5, as the specification words it, fails: an alert whose summary
    annotation is the empty string gets the empty description, not the
    generated default. *)
Lemma C5_empty_summary_kept :
  ~ (forall alert card,
        fst (format_alert_for_discord ascii_upper clock0 alert w0) = Ret card ->
        description card = description_nonempty_summary alert).
Proof.
  intros H.
  specialize (H empty_summary_alert _ eq_refl).
  vm_compute in H. discriminate H.
Qed.

(* ================================================================== *)
(** ** Properties of the dispatcher *)

Section DispatcherProperties.

Variable upper : pystr -> pystr.
Variable clock : nat -> pystr.
Variable requests_post : pystr -> Payload -> delivery.

(** What a run with a configured URL does to the outbound calls. *)
Lemma send_to_discord_posts (url : pystr) (alerts : list Alert) (w : world) :
  url <> [] ->
  exists cards,
    Forall2 (translates upper clock) (dispatched alerts) cards
    /\ posts (trace (snd (send_to_discord upper clock requests_post
                            url alerts w)))
       = posts (trace w)
         ++ match cards with
            | [] => []
            | _ :: _ => [(url, payload_of alerts cards)]
            end.
Proof.
  intros Hurl.
  destruct (send_to_discord_closed upper clock requests_post alerts w Hurl)
    as (cards & Hall & Hrun).
  exists cards. split; [exact Hall|].
  rewrite Hrun.
  destruct cards as [|c cs]; [now rewrite app_nil_r|].
  cbv zeta.
  destruct (requests_post url _); cbn [snd trace];
    rewrite posts_app; reflexivity.
Qed.

(** C2: the batch is the translation of the first min(10, #firing) firing
    alerts followed by the first (10 minus that many) resolved alerts, in
    input order within each group, and has at most 10 cards; with 12
    firing and 3 resolved alerts it is the first 10 firing ones, with 3
    and 3 it is all six, firing first. *)
Theorem C2_batch_cap_and_priority (url : pystr) (alerts : list Alert)
    (w : world) :
  url <> [] ->
  exists cards,
    Forall2 (translates upper clock) (dispatched alerts) cards
    /\ length cards <= 10
    /\ posts (trace (snd (send_to_discord upper clock requests_post
                            url alerts w)))
       = posts (trace w)
         ++ match cards with
            | [] => []
            | _ :: _ => [(url, payload_of alerts cards)]
            end
    /\ embeds (payload_of alerts cards) = cards
    /\ (length (firing_of alerts) = 12 ->
        length (resolved_of alerts) = 3 ->
        Forall2 (translates upper clock) (firstn 10 (firing_of alerts)) cards)
    /\ (length (firing_of alerts) = 3 ->
        length (resolved_of alerts) = 3 ->
        Forall2 (translates upper clock)
                (firing_of alerts ++ resolved_of alerts) cards).
Proof.
  intros Hurl.
  destruct (send_to_discord_posts alerts w Hurl) as (cards & Hall & Hposts).
  exists cards. split; [exact Hall|]. split.
  - rewrite <- (Forall2_length Hall). apply dispatched_length.
  - split; [exact Hposts|]. split; [reflexivity|]. split.
    + intros Hf Hr. unfold dispatched in Hall. rewrite Hf in Hall.
      cbn [Nat.min Nat.sub] in Hall.
      change (firstn 0 (resolved_of alerts)) with (@nil Alert) in Hall.
      now rewrite app_nil_r in Hall.
    + intros Hf Hr. unfold dispatched in Hall. rewrite Hf in Hall.
      cbn [Nat.min Nat.sub] in Hall.
      rewrite !firstn_all2 in Hall by lia. exact Hall.
Qed.

(** C7: with a configured URL, an empty card sequence makes the dispatcher
    return success with the world untouched, so without any outbound HTTP
    call; the empty alerts list is such a case. *)
Theorem C7_empty_batch_no_call (url : pystr) (alerts : list Alert)
    (w : world) :
  url <> [] ->
  dispatched alerts = [] ->
  send_to_discord upper clock requests_post url alerts w = (Ret true, w)
  /\ posts (trace (snd (send_to_discord upper clock requests_post
                          url alerts w)))
     = posts (trace w)
  /\ send_to_discord upper clock requests_post url [] w = (Ret true, w).
Proof.
  intros Hurl Hempty.
  assert (Hgen : forall l, dispatched l = [] ->
            send_to_discord upper clock requests_post url l w = (Ret true, w)).
  { intros l Hl.
    destruct (send_to_discord_closed upper clock requests_post l w Hurl)
      as (cards & Hall & Hrun).
    rewrite Hl in Hall. inversion Hall; subst. exact Hrun. }
  split; [now apply Hgen|]. split.
  - now rewrite Hgen.
  - now apply Hgen.
Qed.

(** C8: for a non-empty batch the payload posted carries the summary
    line: the part "<fire> <n> alert(s) firing" when some alert fires,
    "alert" in the plural unless n is 1, the part "<check> <n> resolved"
    when some alert is resolved, the parts joined by " | ", and no content
    key when both counts are zero. *)
Theorem C8_summary_line (url : pystr) (alerts : list Alert) (w : world) :
  url <> [] ->
  dispatched alerts <> [] ->
  exists p,
    posts (trace (snd (send_to_discord upper clock requests_post
                         url alerts w)))
    = posts (trace w) ++ [(url, p)]
    /\ content p
       = match length (firing_of alerts), length (resolved_of alerts) with
         | O, O => None
         | S _, O => Some (firing_part (length (firing_of alerts)))
         | O, S _ => Some (resolved_part (length (resolved_of alerts)))
         | S _, S _ =>
             Some (firing_part (length (firing_of alerts)) ++ lit " | "
                   ++ resolved_part (length (resolved_of alerts)))
         end.
Proof.
  intros Hurl Hne.
  destruct (send_to_discord_posts alerts w Hurl) as (cards & Hall & Hposts).
  destruct cards as [|c cs].
  - inversion Hall as [Hd|]. congruence.
  - exists (payload_of alerts (c :: cs)). split; [exact Hposts|].
    reflexivity.
Qed.

(** C10: the dispatcher drops every alert whose status is absent or is
    neither "firing" nor "resolved": the run is the run on the grouped
    alerts alone, such an alert is in neither group and not in the batch,
    although the translator returns a card for it, reading an absent
    status as "firing". *)
Theorem C10_ungrouped_alerts_dropped (url : pystr) (alerts : list Alert)
    (w : world) :
  send_to_discord upper clock requests_post url alerts w
  = send_to_discord upper clock requests_post url (filter grouped alerts) w
  /\ firing_of (filter grouped alerts) = firing_of alerts
  /\ resolved_of (filter grouped alerts) = resolved_of alerts
  /\ (forall a,
        alert_status a = None
        \/ (exists s, alert_status a = Some s
                      /\ s <> lit "firing" /\ s <> lit "resolved") ->
        grouped a = false
        /\ ~ In a (firing_of alerts)
        /\ ~ In a (resolved_of alerts)
        /\ ~ In a (dispatched alerts)
        /\ exists card, fst (format_alert_for_discord upper clock a w)
                        = Ret card)
  /\ (forall l an t,
        format_alert_for_discord upper clock (mkAlert None l an t) w
        = format_alert_for_discord upper clock
            (mkAlert (Some (lit "firing")) l an t) w).
Proof.
  assert (Hf : firing_of (filter grouped alerts) = firing_of alerts)
    by (apply filter_grouped; now left).
  assert (Hr : resolved_of (filter grouped alerts) = resolved_of alerts)
    by (apply filter_grouped; now right).
  split.
  - unfold send_to_discord.
    fold (firing_of alerts) (resolved_of alerts).
    fold (firing_of (filter grouped alerts))
         (resolved_of (filter grouped alerts)).
    now rewrite Hf, Hr.
  - split; [exact Hf|]. split; [exact Hr|]. split.
    + intros a Ha.
      assert (Hg : status_is (lit "firing") a = false
                   /\ status_is (lit "resolved") a = false).
      { unfold status_is.
        destruct Ha as [-> | (s & -> & Hs1 & Hs2)]; [now split|].
        split; now apply str_eqb_neq. }
      destruct Hg as [Hg1 Hg2].
      assert (Hnf : ~ In a (firing_of alerts)).
      { unfold firing_of. rewrite filter_In. intros [_ H]. congruence. }
      assert (Hnr : ~ In a (resolved_of alerts)).
      { unfold resolved_of. rewrite filter_In. intros [_ H]. congruence. }
      split; [unfold grouped; now rewrite Hg1, Hg2|].
      split; [exact Hnf|]. split; [exact Hnr|]. split.
      * unfold dispatched. rewrite in_app_iff.
        intros [H|H]; apply in_firstn in H; auto.
      * rewrite format_alert_closed. eexists. reflexivity.
    + intros. rewrite !format_alert_closed. reflexivity.
Qed.

End DispatcherProperties.

(* ================================================================== *)
(** ** Concrete runs *)

Lemma hook_url_configured : hook_url <> [].
Proof. vm_compute. discriminate. Qed.

(** The 12-and-3 input: the ten cards are those of the first ten firing
    alerts. *)
Lemma C2_witness :
  exists cards,
    Forall2 (translates ascii_upper clock0)
            (firstn 10 (firing_of batch_12_3)) cards
    /\ length cards <= 10
    /\ posts (trace (snd (send_to_discord ascii_upper clock0 always_ack
                            hook_url batch_12_3 w0)))
       = match cards with
         | [] => []
         | _ :: _ => [(hook_url, payload_of batch_12_3 cards)]
         end.
Proof.
  destruct (@C2_batch_cap_and_priority ascii_upper clock0 always_ack
              hook_url batch_12_3 w0 hook_url_configured)
    as (cards & _ & Hlen & Hposts & _ & H12 & _).
  exists cards. split; [|split].
  - apply H12; reflexivity.
  - exact Hlen.
  - exact Hposts.
Defined.

(** Two alerts the dispatcher does not group: nothing is sent. *)
Lemma C7_witness :
  send_to_discord ascii_upper clock0 always_ack hook_url
    [pending_alert; statusless_alert] w0
  = (Ret true, w0).
Proof.
  apply (@C7_empty_batch_no_call ascii_upper clock0 always_ack
           hook_url [pending_alert; statusless_alert] w0).
  - exact hook_url_configured.
  - reflexivity.
Defined.

(** The 3-and-3 input: both parts of the summary line. *)
Lemma C8_witness :
  exists p,
    posts (trace (snd (send_to_discord ascii_upper clock0 always_ack
                         hook_url batch_3_3 w0)))
    = [(hook_url, p)]
    /\ content p
       = Some (glyph_fire ++ lit " 3 alerts firing | "
               ++ glyph_check ++ lit " 3 resolved").
Proof.
  destruct (@C8_summary_line ascii_upper clock0 always_ack
              hook_url batch_3_3 w0 hook_url_configured)
    as (p & Hposts & Hcontent).
  - vm_compute. discriminate.
  - exists p. split; [exact Hposts|]. rewrite Hcontent. reflexivity.
Defined.

(** The scenarios of the specification, run. *)
Example scenario_critical :
  fst (format_alert_for_discord ascii_upper clock0
         (mkAlert (Some (lit "firing"))
                  (Some [(lit "severity", lit "critical");
                         (lit "alertname", lit "DiskFull")])
                  (Some [(lit "summary", lit "Disk at 95%")])
                  None) w0)
  = Ret (mkEmbed (glyph_fire ++ lit " CRITICAL: DiskFull")
                 (lit "Disk at 95%")
                 0xFF0000
                 [mkField (lit "Component") (lit "system") true;
                  mkField (lit "Severity") (lit "CRITICAL") true]
                 (lit "2024-01-01T00:00:00")).
Proof. vm_compute. reflexivity. Qed.

Example scenario_resolved :
  fst (format_alert_for_discord ascii_upper clock0
         (mkAlert (Some (lit "resolved"))
                  (Some [(lit "alertname", lit "DiskFull")])
                  None None) w0)
  = Ret (mkEmbed (glyph_check ++ lit " RESOLVED: DiskFull")
                 (lit "Alert DiskFull is resolved")
                 0x00FF00
                 [mkField (lit "Component") (lit "system") true;
                  mkField (lit "Severity") (lit "INFO") true]
                 (lit "2024-01-01T00:00:00")).
Proof. vm_compute. reflexivity. Qed.

Example scenario_resolved_critical :
  fst (format_alert_for_discord ascii_upper clock0
         (mkAlert (Some (lit "resolved"))
                  (Some [(lit "severity", lit "critical");
                         (lit "alertname", lit "DiskFull")])
                  None None) w0)
  = Ret (mkEmbed (glyph_check ++ lit " RESOLVED: DiskFull")
                 (lit "Alert DiskFull is resolved")
                 0x00FF00
                 [mkField (lit "Component") (lit "system") true;
                  mkField (lit "Severity") (lit "CRITICAL") true]
                 (lit "2024-01-01T00:00:00")).
Proof. vm_compute. reflexivity. Qed.

Example scenario_all_fields :
  fst (format_alert_for_discord ascii_upper clock0
         (mkAlert (Some (lit "firing"))
                  (Some [(lit "instance", lit "db1");
                         (lit "severity", lit "warning");
                         (lit "monitor", lit "pg");
                         (lit "job", lit "node");
                         (lit "component", lit "disk")])
                  (Some [(lit "description", lit "Disk is filling");
                         (lit "dashboard", lit "http://g/d/1")])
                  (Some (lit "2024-05-05T10:00:00Z"))) w0)
  = Ret (mkEmbed (glyph_warning ++ lit " WARNING: Alert")
                 (lit "Alert Alert is firing")
                 0xFFA500
                 [mkField (lit "Monitor") (lit "pg") true;
                  mkField (lit "Component") (lit "disk") true;
                  mkField (lit "Severity") (lit "WARNING") true;
                  mkField (lit "Details") (lit "Disk is filling") false;
                  mkField (lit "Dashboard")
                          (lit "[View Dashboard](http://g/d/1)") false;
                  mkField (lit "Labels") (lit "instance=db1, job=node") false]
                 (lit "2024-05-05T10:00:00Z")).
Proof. vm_compute. reflexivity. Qed.

Example run_batch_12_3 :
  send_to_discord ascii_upper clock0 always_ack hook_url batch_12_3 w0
  = (Ret true,
     mkWorld 10
       [HttpPost hook_url
          (payload_of batch_12_3
             (map (fun i =>
                     mkEmbed (glyph_info ++ lit " INFO: f" ++ str_of_nat (S i))
                             (lit "Alert f" ++ str_of_nat (S i)
                              ++ lit " is firing")
                             0x00FF00
                             [mkField (lit "Component") (lit "system") true;
                              mkField (lit "Severity") (lit "INFO") true]
                             (clock0 i))
                  (seq 0 10)))
          10;
        Print Stdout (lit "Successfully sent 10 alerts to Discord")]).
Proof. vm_compute. reflexivity. Qed.

Example summary_12_3 :
  content (payload_of batch_12_3 [])
  = Some (glyph_fire ++ lit " 12 alerts firing | "
          ++ glyph_check ++ lit " 3 resolved").
Proof. vm_compute. reflexivity. Qed.

Example summary_one_firing :
  summary_line 1 0 = Some (glyph_fire ++ lit " 1 alert firing").
Proof. vm_compute. reflexivity. Qed.

Example run_ungrouped_dropped :
  posts (trace (snd (send_to_discord ascii_upper clock0 always_ack hook_url
                       [pending_alert; firing_alert "f1"; statusless_alert]
                       w0)))
  = [(hook_url,
      mkPayload (lit "Hall Monitor Alerts")
        (lit "https://raw.githubusercontent.com/prometheus/prometheus/main/documentation/images/prometheus-logo.svg")
        [mkEmbed (glyph_info ++ lit " INFO: f1")
                 (lit "Alert f1 is firing")
                 0x00FF00
                 [mkField (lit "Component") (lit "system") true;
                  mkField (lit "Severity") (lit "INFO") true]
                 (clock0 0)]
        (Some (glyph_fire ++ lit " 1 alert firing")))].
Proof. vm_compute. reflexivity. Qed.

Example run_unconfigured :
  send_to_discord ascii_upper clock0 always_ack (lit "") batch_3_3 w0
  = (Ret false,
     mkWorld 0
       [Print Stderr (lit "ERROR: DISCORD_WEBHOOK_URL not configured")]).
Proof. vm_compute. reflexivity. Qed.

(* ================================================================== *)
(** ** Exact runs *)

Section ExactRuns.

Variable upper : pystr -> pystr.
Variable clock : nat -> pystr.
Variable requests_post : pystr -> Payload -> delivery.

Lemma format_alert_card (a : Alert) (w : world) :
  format_alert_for_discord upper clock a w
  = (Ret (card_of upper (clock (ticks w)) a),
     mkWorld (S (ticks w)) (trace w)).
Proof. apply format_alert_closed. Qed.

Lemma for_each_cards (xs : list Alert) (acc : list Embed) (w : world) :
  for_each xs acc
    (fun embeds alert =>
       e <- format_alert_for_discord upper clock alert ;;
       ret (embeds ++ [e])) w
  = (Ret (acc ++ cards_from upper clock (ticks w) xs),
     mkWorld (ticks w + length xs) (trace w)).
Proof.
  revert acc w.
  induction xs as [|x xs IH]; intros acc w.
  - simpl. unfold ret. rewrite app_nil_r, Nat.add_0_r. now destruct w.
  - simpl for_each. unfold bind at 1. unfold bind at 1.
    rewrite format_alert_card. unfold ret at 1.
    rewrite IH. cbn [ticks trace cards_from length].
    now rewrite <- app_assoc, Nat.add_succ_r.
Qed.

Lemma cards_from_length (n : nat) (xs : list Alert) :
  length (cards_from upper clock n xs) = length xs.
Proof.
  revert n. induction xs as [|x xs IH]; intros n; simpl; auto.
Qed.

Lemma cards_from_app (n : nat) (xs ys : list Alert) :
  cards_from upper clock n (xs ++ ys)
  = cards_from upper clock n xs ++ cards_from upper clock (n + length xs) ys.
Proof.
  revert n. induction xs as [|x xs IH]; intros n; simpl.
  - now rewrite Nat.add_0_r.
  - now rewrite IH, Nat.add_succ_r.
Qed.

Lemma cards_from_translates (n : nat) (xs : list Alert) :
  Forall2 (translates upper clock) xs (cards_from upper clock n xs).
Proof.
  revert n. induction xs as [|x xs IH]; intros n; simpl; constructor; auto.
  exists (mkWorld n []). apply format_alert_card.
Qed.

Lemma cards_from_In (n : nat) (xs : list Alert) (c : Embed) :
  In c (cards_from upper clock n xs) ->
  exists a k, In a xs /\ c = card_of upper (clock k) a.
Proof.
  revert n. induction xs as [|x xs IH]; intros n; simpl; [tauto|].
  intros [<-|H].
  - exists x, n. auto.
  - destruct (IH _ H) as (a & k & Ha & ->). exists a, k. auto.
Qed.

Lemma batch_cards_length (w : world) (alerts : list Alert) :
  length (batch_cards upper clock w alerts)
  = Nat.min 10 (length (firing_of alerts) + length (resolved_of alerts)).
Proof.
  unfold batch_cards, dispatched.
  rewrite cards_from_length, length_app, !length_firstn. lia.
Qed.

Lemma batch_cards_nil (w : world) (alerts : list Alert) :
  batch_cards upper clock w alerts = [] <-> dispatched alerts = [].
Proof.
  unfold batch_cards.
  destruct (dispatched alerts); simpl; split; congruence.
Qed.

Lemma send_to_discord_unconfigured (alerts : list Alert) (w : world) :
  send_to_discord upper clock requests_post [] alerts w
  = (Ret false,
     mkWorld (ticks w)
       (trace w
        ++ [Print Stderr (lit "ERROR: DISCORD_WEBHOOK_URL not configured")])).
Proof. reflexivity. Qed.

Lemma send_to_discord_exact (url : pystr) (alerts : list Alert) (w : world) :
  url <> [] ->
  send_to_discord upper clock requests_post url alerts w
  = match batch_cards upper clock w alerts with
    | [] => (Ret true, w)
    | c :: cs =>
        let p := payload_of alerts (c :: cs) in
        match requests_post url p with
        | Acknowledged =>
            (Ret true,
             mkWorld (ticks w + length (c :: cs))
               (trace w ++
                [HttpPost url p 10;
                 Print Stdout (lit "Successfully sent "
                               ++ str_of_nat (length (c :: cs))
                               ++ lit " alerts to Discord")]))
        | RequestException e =>
            (Ret false,
             mkWorld (ticks w + length (c :: cs))
               (trace w ++
                [HttpPost url p 10;
                 Print Stderr (lit "ERROR sending to Discord: " ++ e)]))
        end
    end.
Proof.
  intros Hurl.
  unfold send_to_discord.
  destruct url as [|u0 url']; [congruence|]. cbn [truthy negb].
  fold (firing_of alerts) (resolved_of alerts).
  change 10%Z with (Z.of_nat 10). rewrite slice_to_nonneg.
  unfold batch_cards. rewrite dispatched_firstn.
  remember (firstn 10 (firing_of alerts)) as F eqn:HF.
  assert (HlenF : length F <= 10) by (subst F; rewrite length_firstn; lia).
  unfold bind at 1. rewrite for_each_cards. cbn [app].
  rewrite cards_from_length.
  replace (Z.of_nat 10 - Z.of_nat (length F))%Z
    with (Z.of_nat (10 - length F)) by lia.
  rewrite slice_to_nonneg.
  remember (firstn (10 - length F) (resolved_of alerts)) as R eqn:HR.
  unfold bind at 1. rewrite for_each_cards. cbn [ticks trace].
  rewrite <- cards_from_app.
  assert (Hticks : ticks w + length F + length R
                   = ticks w + length (cards_from upper clock (ticks w)
                                         (F ++ R)))
    by (rewrite cards_from_length, length_app; lia).
  rewrite Hticks.
  destruct (cards_from upper clock (ticks w) (F ++ R)) as [|c cs] eqn:Hcards.
  - unfold ret. cbn [length]. rewrite Nat.add_0_r. now destruct w.
  - cbv zeta. unfold payload_of.
    match goal with
    | |- context [HttpPost _ ?p _] =>
        replace p
          with (mkPayload
                  (lit "Hall Monitor Alerts")
                  (lit "https://raw.githubusercontent.com/prometheus/prometheus/main/documentation/images/prometheus-logo.svg")
                  (c :: cs)
                  (summary_line (length (firing_of alerts))
                                (length (resolved_of alerts))))
          by (symmetry;
              exact (summary_parts_closed
                       (length (firing_of alerts))
                       (length (resolved_of alerts))
                       (mkPayload _ _ (c :: cs) None) eq_refl))
    end.
    unfold bind, print, emit, ret. cbn [ticks trace].
    destruct (requests_post _ _); cbn [ticks trace];
      rewrite <- app_assoc; reflexivity.
Qed.

End ExactRuns.

(* ================================================================== *)
(** ** Further properties of the translator *)

Lemma subsequence_In (xs ys : list pystr) (x : pystr) :
  subsequence xs ys = true -> In x xs -> In x ys.
Proof.
  revert xs. induction ys as [|y ys IH]; intros [|x' xs] H Hin; simpl in *;
    try tauto; try discriminate.
  destruct (str_eqb x' y) eqn:E.
  - apply str_eqb_eq in E. subst y.
    destruct Hin as [->|Hin]; [now left|]. right. eapply IH; eauto.
  - right. eapply IH; eauto.
Qed.

Lemma subsequence_NoDup (xs ys : list pystr) :
  subsequence xs ys = true -> NoDup ys -> NoDup xs.
Proof.
  revert xs. induction ys as [|y ys IH]; intros [|x xs] H Hnd; simpl in *;
    try constructor; try discriminate.
  - inversion Hnd as [|? ? Hy Hys]; subst.
    destruct (str_eqb x y) eqn:E.
    + apply str_eqb_eq in E. subst y.
      intros Hin. apply Hy. eapply subsequence_In; eauto.
    + assert (Hx : NoDup (x :: xs)) by (apply IH; auto).
      now inversion Hx.
  - inversion Hnd as [|? ? Hy Hys]; subst.
    destruct (str_eqb x y) eqn:E.
    + now apply IH.
    + assert (Hx : NoDup (x :: xs)) by (apply IH; auto).
      now inversion Hx.
Qed.

Lemma subsequence_length (xs ys : list pystr) :
  subsequence xs ys = true -> length xs <= length ys.
Proof.
  revert xs. induction ys as [|y ys IH]; intros [|x xs] H; simpl in *;
    try lia; try discriminate.
  destruct (str_eqb x y).
  - apply IH in H. lia.
  - apply IH in H. simpl in H. lia.
Qed.

Lemma field_order_NoDup : NoDup field_order.
Proof.
  unfold field_order.
  repeat (constructor;
          [simpl; intros H;
           repeat (destruct H as [H|H];
                   [vm_compute in H; discriminate H|]);
           exact H|]).
  constructor.
Qed.

Lemma card_fields_subsequence (upper : pystr -> pystr) (a : Alert) :
  subsequence (map name (card_fields upper a)) field_order = true.
Proof.
  unfold card_fields, monitor_field, component_field, severity_field,
    details_field, dashboard_field, labels_field.
  destruct (str_eqb (monitor_of a) (lit "unknown"));
  destruct (component_of a);
  destruct (get (annotations_of a) (lit "description")) as [[|? ?]|];
  destruct (get (annotations_of a) (lit "dashboard")) as [[|? ?]|];
  destruct (remaining_labels a);
  reflexivity.
Qed.

Lemma firstn_prefix_of (n : nat) (s : pystr) : prefix_of (firstn n s) s.
Proof. exists (skipn n s). symmetry. apply firstn_skipn. Qed.

Lemma join_cons_nonempty (sep x : pystr) (xs : list pystr) :
  x <> [] -> join sep (x :: xs) <> [].
Proof.
  intros Hx. destruct x as [|c x]; [congruence|].
  destruct xs; simpl; discriminate.
Qed.

Lemma firstn_succ_nonempty {A : Type} (n : nat) (l : list A) :
  l <> [] -> firstn (S n) l <> [].
Proof. destruct l; [congruence|]. simpl. discriminate. Qed.

Section TranslatorExtras.

Variable upper : pystr -> pystr.
Variable clock : nat -> pystr.

(** X1: translating an alert in two worlds gives cards that agree on the
    title, the description, the color and the fields; they agree on the
    timestamp too when the alert has a startsAt, and carry the two clock
    readings when it has none. The clock is read once per call in both
    cases and nothing is printed or posted. *)
Theorem X1_card_varies_only_by_clock (a : Alert) (w1 w2 : world) :
  exists c1 c2,
    format_alert_for_discord upper clock a w1
    = (Ret c1, mkWorld (S (ticks w1)) (trace w1))
    /\ format_alert_for_discord upper clock a w2
       = (Ret c2, mkWorld (S (ticks w2)) (trace w2))
    /\ title c1 = title c2
    /\ description c1 = description c2
    /\ color c1 = color c2
    /\ fields c1 = fields c2
    /\ (forall t, alert_startsAt a = Some t ->
                  c1 = c2 /\ timestamp c1 = t)
    /\ (alert_startsAt a = None ->
        timestamp c1 = clock (ticks w1) /\ timestamp c2 = clock (ticks w2)).
Proof.
  rewrite !format_alert_card.
  do 2 eexists. split; [reflexivity|]. split; [reflexivity|].
  unfold card_of. cbn [title description color fields timestamp].
  repeat split; try reflexivity.
  - rewrite H. reflexivity.
  - now rewrite H.
  - now rewrite H.
  - now rewrite H.
Qed.

(** X2: a card has at least one and at most six fields, and no two of
    them have the same name. *)
Theorem X2_field_count_and_names (a : Alert) (w : world) :
  exists card,
    fst (format_alert_for_discord upper clock a w) = Ret card
    /\ 1 <= length (fields card) <= 6
    /\ NoDup (map name (fields card)).
Proof.
  rewrite format_alert_card. eexists. split; [reflexivity|].
  unfold card_of. cbn [fields].
  pose proof (card_fields_subsequence upper a) as Hsub.
  split; [split|].
  - unfold card_fields, severity_field.
    rewrite !length_app. cbn [length]. lia.
  - apply subsequence_length in Hsub. now rewrite length_map in Hsub.
  - eapply subsequence_NoDup; [exact Hsub|apply field_order_NoDup].
Qed.

(** X3: Monitor, Component and Severity are inline fields; Details,
    Dashboard and Labels are block fields; a card has no other field. *)
Theorem X3_inline_layout (a : Alert) (w : world) :
  exists card,
    fst (format_alert_for_discord upper clock a w) = Ret card
    /\ forall f, In f (fields card) ->
         (inline f = true /\
          (name f = lit "Monitor" \/ name f = lit "Component"
           \/ name f = lit "Severity"))
         \/ (inline f = false /\
             (name f = lit "Details" \/ name f = lit "Dashboard"
              \/ name f = lit "Labels")).
Proof.
  rewrite format_alert_card. eexists. split; [reflexivity|].
  unfold card_of. cbn [fields]. intros f Hin.
  apply card_fields_cases in Hin.
  destruct Hin as [->|[->|[->|[[d ->]|[[d ->]|[s ->]]]]]];
    cbn [name inline]; auto 6.
Qed.

(** X4: the Details value is a beginning of the description annotation
    and the Labels value a beginning of the joined labels; each is the
    whole text when that has at most 1024 characters. *)
Theorem X4_sliced_values_are_prefixes (a : Alert) (w : world) :
  exists card,
    fst (format_alert_for_discord upper clock a w) = Ret card
    /\ (forall d, get (annotations_of a) (lit "description") = Some d ->
                  d <> [] ->
                  exists v,
                    In (mkField (lit "Details") v false) (fields card)
                    /\ prefix_of v d
                    /\ (length d <= 1024 -> v = d))
    /\ (remaining_labels a <> [] ->
        exists v,
          In (mkField (lit "Labels") v false) (fields card)
          /\ prefix_of v
               (join (lit ", ")
                     (map (fun kv => fst kv ++ lit "=" ++ snd kv)
                          (remaining_labels a)))
          /\ (length (join (lit ", ")
                        (map (fun kv => fst kv ++ lit "=" ++ snd kv)
                             (remaining_labels a))) <= 1024 ->
              v = join (lit ", ")
                       (map (fun kv => fst kv ++ lit "=" ++ snd kv)
                            (remaining_labels a)))).
Proof.
  rewrite format_alert_card. eexists. split; [reflexivity|].
  unfold card_of. cbn [fields]. unfold card_fields. split.
  - intros d Hd Hne. exists (firstn 1024 d). split; [|split].
    + rewrite !in_app_iff. do 3 right. left.
      unfold details_field. rewrite Hd.
      destruct d; [congruence|]. now left.
    + apply firstn_prefix_of.
    + intros Hlen. now apply firstn_all2.
  - intros Hne.
    exists (firstn 1024
              (join (lit ", ")
                    (map (fun kv => fst kv ++ lit "=" ++ snd kv)
                         (remaining_labels a)))).
    split; [|split].
    + rewrite !in_app_iff. do 5 right.
      unfold labels_field.
      destruct (remaining_labels a); [congruence|]. left. reflexivity.
    + apply firstn_prefix_of.
    + intros Hlen. now apply firstn_all2.
Qed.

(** X5: a card is red exactly for an unresolved critical alert, orange
    exactly for an unresolved warning alert, and green in every other
    case, so green marks resolved alerts and unresolved alerts of any
    other severity alike. *)
Theorem X5_color_characterised (a : Alert) (w : world) :
  exists card,
    fst (format_alert_for_discord upper clock a w) = Ret card
    /\ (color card = 0xFF0000%Z <->
        status_of a <> lit "resolved" /\ severity_of a = lit "critical")
    /\ (color card = 0xFFA500%Z <->
        status_of a <> lit "resolved" /\ severity_of a = lit "warning")
    /\ (color card = 0x00FF00%Z <->
        status_of a = lit "resolved"
        \/ (severity_of a <> lit "critical"
            /\ severity_of a <> lit "warning")).
Proof.
  rewrite format_alert_card. eexists. split; [reflexivity|].
  unfold card_of. cbn [color]. unfold priority_chain.
  destruct (str_eqb (status_of a) (lit "resolved")) eqn:Hs;
    [apply str_eqb_eq in Hs | apply str_eqb_neq in Hs];
  (destruct (str_eqb (severity_of a) (lit "critical")) eqn:Hc;
    [apply str_eqb_eq in Hc | apply str_eqb_neq in Hc]);
  (destruct (str_eqb (severity_of a) (lit "warning")) eqn:Hw;
    [apply str_eqb_eq in Hw | apply str_eqb_neq in Hw]);
  cbn [category_color];
  try (exfalso; rewrite Hc in Hw; vm_compute in Hw; discriminate Hw);
  repeat split; intros; try discriminate; try tauto; try congruence;
    try (exfalso; intuition congruence).
Qed.

(** X6: the values of the Component, Details, Dashboard and Labels
    fields are never empty, while Monitor is tested against "unknown"
    only: an alert whose monitor label is the empty string gets a Monitor
    field with an empty value. *)
Theorem X6_empty_values (a : Alert) (w : world) :
  exists card,
    fst (format_alert_for_discord upper clock a w) = Ret card
    /\ (forall f, In f (fields card) ->
          name f = lit "Component" \/ name f = lit "Details"
          \/ name f = lit "Dashboard" \/ name f = lit "Labels" ->
          value f <> [])
    /\ (monitor_of a = [] ->
        In (mkField (lit "Monitor") [] true) (fields card)).
Proof.
  rewrite format_alert_card. eexists. split; [reflexivity|].
  unfold card_of. cbn [fields]. unfold card_fields. split.
  - intros f Hin Hname.
    rewrite !in_app_iff in Hin.
    unfold monitor_field, component_field, severity_field, details_field,
      dashboard_field, labels_field in Hin.
    destruct Hin as [H|[H|[H|[H|[H|H]]]]].
    + destruct (str_eqb _ _); [destruct H|].
      destruct H as [<-|[]]. exfalso.
      destruct Hname as [E|[E|[E|E]]]; vm_compute in E; discriminate E.
    + destruct (component_of a) eqn:Ec; [destruct H|].
      destruct H as [<-|[]]. cbn [value]. discriminate.
    + destruct H as [<-|[]]. exfalso.
      destruct Hname as [E|[E|[E|E]]]; vm_compute in E; discriminate E.
    + destruct (get _ _) as [[|c d]|]; try destruct H.
      * subst f. cbn [value]. simpl. discriminate.
      * destruct H.
    + destruct (get _ _) as [[|c d]|]; try destruct H.
      * subst f. cbn [value]. simpl. discriminate.
      * destruct H.
    + destruct (remaining_labels a) as [|kv kvs]; [destruct H|].
      destruct H as [<-|[]]. cbn [value].
      change 1024 with (S 1023). apply firstn_succ_nonempty.
      cbn [map]. apply join_cons_nonempty.
      intros E. apply app_eq_nil in E as [_ E].
      apply app_eq_nil in E as [E _]. vm_compute in E. discriminate E.
  - intros Hm. rewrite !in_app_iff. left.
    unfold monitor_field. rewrite Hm. now left.
Qed.

End TranslatorExtras.

(* ================================================================== *)
(** ** Further properties of the dispatcher *)

Lemma card_of_field_count (upper : pystr -> pystr) (now : pystr) (a : Alert) :
  1 <= length (fields (card_of upper now a)) <= 6.
Proof.
  unfold card_of. cbn [fields]. split.
  - unfold card_fields, severity_field. rewrite !length_app. cbn [length]. lia.
  - pose proof (card_fields_subsequence upper a) as Hsub.
    apply subsequence_length in Hsub. now rewrite length_map in Hsub.
Qed.

Lemma card_of_sliced (upper : pystr -> pystr) (now : pystr) (a : Alert)
    (f : Field) :
  In f (fields (card_of upper now a)) ->
  name f = lit "Details" \/ name f = lit "Labels" ->
  length (value f) <= 1024.
Proof.
  unfold card_of. cbn [fields]. intros Hin Hname.
  apply card_fields_cases in Hin.
  destruct Hin as [->|[->|[->|[[d ->]|[[d ->]|[s ->]]]]]];
    cbn [name value] in *;
    try (destruct Hname as [Hname|Hname];
         vm_compute in Hname; discriminate);
    rewrite length_firstn; lia.
Qed.

Lemma dispatched_In (alerts : list Alert) (a : Alert) :
  In a (dispatched alerts) -> In a alerts /\ grouped a = true.
Proof.
  unfold dispatched, firing_of, resolved_of, grouped.
  rewrite in_app_iff.
  intros [H|H]; apply in_firstn in H; apply filter_In in H as [Hin Hs];
    rewrite Hs; split; auto using orb_true_r.
Qed.

Section DispatcherExtras.

Variable upper : pystr -> pystr.
Variable clock : nat -> pystr.
Variable requests_post : pystr -> Payload -> delivery.

(** The events a call adds to the trace. *)
Lemma send_to_discord_events (url : pystr) (alerts : list Alert) (w : world) :
  let p := payload_of alerts (batch_cards upper clock w alerts) in
  exists new,
    trace (snd (send_to_discord upper clock requests_post url alerts w))
    = trace w ++ new
    /\ ((url = []
         /\ new = [Print Stderr
                     (lit "ERROR: DISCORD_WEBHOOK_URL not configured")])
        \/ (url <> [] /\ dispatched alerts = [] /\ new = [])
        \/ (url <> [] /\ dispatched alerts <> []
            /\ exists out msg, new = [HttpPost url p 10; Print out msg])).
Proof.
  intros p. subst p.
  destruct url as [|u0 url'].
  - rewrite send_to_discord_unconfigured. eexists. split; [reflexivity|].
    left. auto.
  - rewrite send_to_discord_exact by discriminate.
    destruct (batch_cards upper clock w alerts) as [|c cs] eqn:Hb.
    + exists []. split; [now rewrite app_nil_r|].
      right. left. repeat split; [discriminate|]. now apply batch_cards_nil in Hb.
    + assert (Hne : dispatched alerts <> []).
      { intros H. apply batch_cards_nil with (upper := upper) (clock := clock)
                        (w := w) in H. congruence. }
      cbv zeta.
      destruct (requests_post _ _); cbn [snd trace];
        (eexists; split; [reflexivity|]);
        right; right; repeat split; try discriminate; auto; eauto.
Qed.

(** X7: the dispatcher never raises; it returns False exactly when the
    URL is not configured or the post of a non-empty batch ended in a
    RequestException, and True exactly when the URL is configured and the
    batch is empty or its post was acknowledged. *)
Theorem X7_dispatch_result (url : pystr) (alerts : list Alert) (w : world) :
  let p := payload_of alerts (batch_cards upper clock w alerts) in
  exists b,
    fst (send_to_discord upper clock requests_post url alerts w) = Ret b
    /\ (b = false <->
        url = []
        \/ (dispatched alerts <> []
            /\ exists e, requests_post url p = RequestException e))
    /\ (b = true <->
        url <> []
        /\ (dispatched alerts = [] \/ requests_post url p = Acknowledged)).
Proof.
  intros p. subst p.
  destruct url as [|u0 url'].
  - rewrite send_to_discord_unconfigured. exists false.
    split; [reflexivity|]. split; split; auto; try discriminate.
    intros [H _]. congruence.
  - rewrite send_to_discord_exact by discriminate.
    pose proof (batch_cards_nil upper clock w alerts) as Hnil.
    destruct (batch_cards upper clock w alerts) as [|c cs] eqn:Hb.
    + exists true. split; [reflexivity|].
      assert (Hd : dispatched alerts = []) by now apply Hnil.
      split; split; try discriminate; auto.
      * intros [H|[H _]]; congruence.
      * intros _. split; [discriminate|auto].
    + assert (Hne : dispatched alerts <> [])
        by (intros H; apply Hnil in H; discriminate).
      cbv zeta.
      destruct (requests_post (u0 :: url') _) as [|e] eqn:Hpost; cbn [fst].
      * exists true. split; [reflexivity|].
        split; split; try discriminate; auto.
        -- intros [H|[_ [e He]]]; congruence.
        -- intros _. split; [discriminate|auto].
      * exists false. split; [reflexivity|].
        split; split; try discriminate; auto.
        -- intros _. right. split; [exact Hne|eauto].
        -- intros [_ [H|H]]; congruence.
Qed.


(** X9: with a configured URL the clock is read once per card and the
    batch has exactly min(10, firing + resolved) cards, so alerts past
    the cap are never translated; the summary line of the same payload
    still counts every firing and every resolved alert of the input, and
    the success log line reports the number of cards. *)
Theorem X9_batch_size_and_clock (url : pystr) (alerts : list Alert)
    (w : world) :
  url <> [] ->
  let n := Nat.min 10 (length (firing_of alerts)
                       + length (resolved_of alerts)) in
  let w' := snd (send_to_discord upper clock requests_post url alerts w) in
  ticks w' = ticks w + n
  /\ (dispatched alerts <> [] ->
      exists p out msg,
        trace w' = trace w ++ [HttpPost url p 10; Print out msg]
        /\ length (embeds p) = n
        /\ content p = summary_line (length (firing_of alerts))
                                    (length (resolved_of alerts))
        /\ (requests_post url p = Acknowledged ->
            out = Stdout
            /\ msg = lit "Successfully sent " ++ str_of_nat n
                     ++ lit " alerts to Discord")).
Proof.
  intros Hurl n w'. subst n w'.
  rewrite send_to_discord_exact by exact Hurl.
  pose proof (batch_cards_length upper clock w alerts) as Hlen.
  pose proof (batch_cards_nil upper clock w alerts) as Hnil.
  destruct (batch_cards upper clock w alerts) as [|c cs] eqn:Hb.
  - cbn [snd]. cbn [length] in Hlen. split; [lia|].
    intros Hne. exfalso. apply Hne. now apply Hnil.
  - cbv zeta.
    destruct (requests_post url (payload_of alerts (c :: cs))) as [|e] eqn:Hp;
      cbn [snd ticks trace]; (split; [lia|]); intros _;
      do 3 eexists; (split; [reflexivity|]);
      cbn [payload_of embeds content]; (split; [exact Hlen|]);
      (split; [reflexivity|]).
    + intros _. now rewrite Hlen.
    + intros Hack. pose proof (eq_trans (eq_sym Hp) Hack) as E.
      discriminate E.
Qed.

(** X10: every card of a posted payload is the translation of an alert
    of the input whose status is "firing" or "resolved"; the payload has
    between 1 and 10 cards, each with 1 to 6 fields and with Details and
    Labels values of at most 1024 characters. *)
Theorem X10_posted_cards (url : pystr) (alerts : list Alert) (w : world) :
  exists new,
    trace (snd (send_to_discord upper clock requests_post url alerts w))
    = trace w ++ new
    /\ forall u p t, In (HttpPost u p t) new ->
         1 <= length (embeds p) <= 10
         /\ forall c, In c (embeds p) ->
              (exists a, In a alerts /\ grouped a = true
                         /\ translates upper clock a c)
              /\ 1 <= length (fields c) <= 6
              /\ (forall f, In f (fields c) ->
                    name f = lit "Details" \/ name f = lit "Labels" ->
                    length (value f) <= 1024).
Proof.
  destruct (send_to_discord_events url alerts w) as (new & Htrace & Hcases).
  exists new. split; [exact Htrace|].
  intros u p t Hin.
  destruct Hcases as [[Hu ->]|[(Hu & Hd & ->)|(Hu & Hd & out & msg & ->)]].
  - destruct Hin as [H|[]]. discriminate H.
  - destruct Hin.
  - destruct Hin as [H|[H|[]]]; [|discriminate H].
    injection H as _ <- _. cbn [payload_of embeds].
    pose proof (batch_cards_length upper clock w alerts) as Hlen.
    split.
    + assert (Hpos : batch_cards upper clock w alerts <> [])
        by (intros E; apply batch_cards_nil in E; congruence).
      destruct (batch_cards upper clock w alerts); [congruence|].
      cbn [length] in *. lia.
    + intros c Hc. unfold batch_cards in Hc.
      apply cards_from_In in Hc as (a & k & Ha & ->).
      apply dispatched_In in Ha as [Ha Hg].
      split; [|split].
      * exists a. split; [exact Ha|]. split; [exact Hg|].
        exists (mkWorld k []). apply format_alert_card.
      * apply card_of_field_count.
      * apply card_of_sliced.
Qed.

End DispatcherExtras.

(* ================================================================== *)
(** ** Properties of the HTTP handler *)

Section HandlerProperties.

Variable upper : pystr -> pystr.
Variable clock : nat -> pystr.
Variable requests_post : pystr -> Payload -> delivery.
Variable address_string : pystr.
Variable request_log : Z -> pystr.

Lemma do_POST_unreadable (url e : pystr) (c : conn) :
  do_POST upper clock requests_post url address_string request_log
          (Readable (Unreadable e)) c
  = (inl tt,
     mkConn
       (mkWorld (ticks (outside c))
          (trace (outside c)
           ++ [Print Stderr (lit "ERROR processing webhook: " ++ e);
               access_log address_string request_log 500]))
       (wire_out c
        ++ answer 500 [(lit "status", JString (lit "error"));
                       (lit "message", JString e)])).
Proof.
  unfold do_POST, try_except, send_response, log_message,
    send_header, end_headers, wfile_write_json, to_wire, lift, print, emit,
    answer, access_log, h_bind, h_raise, h_ret.
  cbn [outside wire_out ticks trace str_exception].
  now rewrite <- !app_assoc.
Qed.

Lemma do_POST_webhook (url : pystr) (a : option (list Alert)) (c : conn) :
  do_POST upper clock requests_post url address_string request_log
          (Readable (Webhook a)) c
  = match send_to_discord upper clock requests_post url (alerts_of a)
            (received a (outside c)) with
    | (Ret true, w2) =>
        (inl tt,
         mkConn (mkWorld (ticks w2) (trace w2 ++ [access_log address_string request_log 200]))
                (wire_out c
                 ++ answer 200 [(lit "status", JString (lit "ok"))]))
    | (Ret false, w2) =>
        (inl tt,
         mkConn (mkWorld (ticks w2) (trace w2 ++ [access_log address_string request_log 500]))
                (wire_out c
                 ++ answer 500 [(lit "status", JString (lit "error"))]))
    | (Raise e, w2) =>
        (inl tt,
         mkConn
           (mkWorld (ticks w2)
              (trace w2
               ++ [Print Stderr (lit "ERROR processing webhook: "
                                 ++ str_exception (Uncaught e));
                   access_log address_string request_log 500]))
           (wire_out c
            ++ answer 500
                 [(lit "status", JString (lit "error"));
                  (lit "message", JString (str_exception (Uncaught e)))]))
    end.
Proof.
  unfold do_POST. unfold h_bind at 1. unfold h_ret at 1.
  unfold try_except.
  assert (Hal : (match a with
                 | Some alerts => h_ret alerts
                 | None => h_ret []
                 end) = h_ret (alerts_of a)) by now destruct a.
  cbv beta iota. rewrite Hal. clear Hal.
  unfold h_bind at 1. unfold h_ret at 1.
  unfold h_bind at 1. unfold lift at 1. unfold print, emit.
  cbn [outside wire_out].
  unfold h_bind at 1. unfold lift at 1. cbn [outside wire_out].
  fold (received a (outside c)).
  destruct (send_to_discord upper clock requests_post url (alerts_of a)
              (received a (outside c))) as [[[|]|e] w2];
    unfold send_response, log_message, send_header, end_headers,
      wfile_write_json, to_wire, lift, print, emit, answer, access_log,
      h_bind;
    cbn [outside wire_out ticks trace];
    rewrite <- ?app_assoc; reflexivity.
Qed.


Lemma do_GET_closed (url : pystr) (c : conn) :
  do_GET url address_string request_log c
  = (inl tt,
     mkConn
       (mkWorld (ticks (outside c))
          (trace (outside c) ++ [access_log address_string request_log 200]))
       (wire_out c
        ++ answer 200
             [(lit "status", JString (lit "healthy"));
              (lit "service", JString (lit "Discord Webhook Adapter"));
              (lit "webhook_configured", JBool (truthy url))])).
Proof.
  unfold do_GET, send_response, log_message, send_header, end_headers,
    wfile_write_json, to_wire, lift, print, emit, answer, access_log, h_bind.
  cbn [outside wire_out ticks trace].
  now rewrite <- !app_assoc.
Qed.

Lemma send_to_discord_returns (url : pystr) (alerts : list Alert) (w : world) :
  exists b new,
    send_to_discord upper clock requests_post url alerts w
    = (Ret b, mkWorld (ticks (snd (send_to_discord upper clock requests_post
                                     url alerts w)))
                      (trace w ++ new)).
Proof.
  destruct url as [|u0 url'].
  - rewrite send_to_discord_unconfigured. do 2 eexists. reflexivity.
  - rewrite send_to_discord_exact by discriminate.
    destruct (batch_cards upper clock w alerts) as [|c cs].
    + exists true, []. rewrite app_nil_r. now destruct w.
    + cbv zeta. destruct (requests_post _ _); do 2 eexists; reflexivity.
Qed.

(** X11: a call of [do_POST] whose Content-Length header is a number,
    and every call of [do_GET], ends normally and puts exactly one
    complete answer on the connection (status line, JSON content type,
    end of headers, one JSON object with a "status" key); the status is
    200 or 500 for a POST and 200 for a GET, and the call logs one access
    line through [log_message], after anything else it prints. A
    Content-Length header that is not a number is outside the try block:
    the exception leaves [do_POST], which writes and prints nothing. *)
Theorem X11_one_answer_per_request (url e : pystr) (b : body) (c : conn) :
  (exists code obj w' printed,
      do_POST upper clock requests_post url address_string request_log
              (Readable b) c
      = (inl tt, mkConn w' (wire_out c ++ answer code obj))
      /\ (code = 200%Z \/ code = 500%Z)
      /\ get obj (lit "status")
         = Some (JString (if (code =? 200)%Z then lit "ok" else lit "error"))
      /\ trace w'
         = trace (outside c) ++ printed
           ++ [Print Stdout (address_string ++ lit " - " ++ request_log code)])
  /\ do_POST upper clock requests_post url address_string request_log
             (BadLength e) c
     = (inr (HeaderError e), c)
  /\ (exists obj w',
        do_GET url address_string request_log c
        = (inl tt, mkConn w' (wire_out c ++ answer 200 obj))
        /\ get obj (lit "status") = Some (JString (lit "healthy"))
        /\ ticks w' = ticks (outside c)
        /\ trace w'
           = trace (outside c)
             ++ [Print Stdout (address_string ++ lit " - " ++ request_log 200)]).
Proof.
  split; [|split].
  - destruct b as [e'|a].
    + rewrite do_POST_unreadable.
      exists 500%Z. do 2 eexists.
      exists [Print Stderr (lit "ERROR processing webhook: " ++ e')].
      split; [reflexivity|]. split; [now right|]. split; [reflexivity|].
      reflexivity.
    + rewrite do_POST_webhook.
      destruct (send_to_discord_returns url (alerts_of a)
                  (received a (outside c))) as (r & new & Hrun).
      rewrite Hrun.
      destruct r.
      * exists 200%Z. do 2 eexists.
        exists ([Print Stdout (lit "Received "
                               ++ str_of_nat (length (alerts_of a))
                               ++ lit " alerts from Alertmanager")] ++ new).
        split; [reflexivity|]. split; [now left|]. split; [reflexivity|].
        cbn [trace received]. now rewrite <- !app_assoc.
      * exists 500%Z. do 2 eexists.
        exists ([Print Stdout (lit "Received "
                               ++ str_of_nat (length (alerts_of a))
                               ++ lit " alerts from Alertmanager")] ++ new).
        split; [reflexivity|]. split; [now right|]. split; [reflexivity|].
        cbn [trace received]. now rewrite <- !app_assoc.
  - reflexivity.
  - rewrite do_GET_closed. do 2 eexists.
    split; [reflexivity|]. split; [reflexivity|]. split; reflexivity.
Qed.


(** X13: a body that cannot be read or decoded is answered with 500 and
    {"status": "error", "message": <the exception text>}; the error is
    printed to stderr, no outbound HTTP call is made and the clock is not
    read. *)
Theorem X13_unreadable_body (url e : pystr) (c : conn) :
  exists w',
    do_POST upper clock requests_post url address_string request_log
            (Readable (Unreadable e)) c
    = (inl tt,
       mkConn w'
         (wire_out c
          ++ answer 500 [(lit "status", JString (lit "error"));
                         (lit "message", JString e)]))
    /\ posts (trace w') = posts (trace (outside c))
    /\ ticks w' = ticks (outside c)
    /\ In (Print Stderr (lit "ERROR processing webhook: " ++ e)) (trace w').
Proof.
  rewrite do_POST_unreadable. eexists. split; [reflexivity|].
  cbn [ticks trace]. split; [|split].
  - rewrite posts_app. cbn. apply app_nil_r.
  - reflexivity.
  - apply in_or_app. right. now left.
Qed.

(** X14: with a configured URL, a body whose alerts key is absent, is the
    empty list, or holds only alerts that are neither firing nor
    resolved is answered with 200 and {"status": "ok"} without any
    outbound HTTP call and without reading the clock. *)
Theorem X14_nothing_to_send_is_ok (url : pystr) (a : option (list Alert))
    (c : conn) :
  url <> [] ->
  dispatched (alerts_of a) = [] ->
  do_POST upper clock requests_post url address_string request_log
          (Readable (Webhook a)) c
  = (inl tt,
     mkConn
       (mkWorld (ticks (outside c))
          (trace (outside c)
           ++ [Print Stdout (lit "Received "
                             ++ str_of_nat (length (alerts_of a))
                             ++ lit " alerts from Alertmanager");
               Print Stdout (address_string ++ lit " - " ++ request_log 200)]))
       (wire_out c ++ answer 200 [(lit "status", JString (lit "ok"))]))
  /\ do_POST upper clock requests_post url address_string request_log
             (Readable (Webhook None)) c
     = do_POST upper clock requests_post url address_string request_log
               (Readable (Webhook (Some []))) c.
Proof.
  intros Hurl Hd. split; [|reflexivity].
  rewrite do_POST_webhook, send_to_discord_exact by exact Hurl.
  assert (Hb : batch_cards upper clock (received a (outside c)) (alerts_of a)
               = []) by now apply batch_cards_nil.
  rewrite Hb. unfold access_log. cbn [ticks trace received].
  now rewrite <- !app_assoc.
Qed.


End HandlerProperties.

(* ================================================================== *)
(** ** Further concrete runs *)

(** The 12-and-3 input: ten clock reads, ten cards, a summary of all
    fifteen alerts. *)
Lemma X9_witness :
  ticks (snd (send_to_discord ascii_upper clock0 always_ack
                hook_url batch_12_3 w0)) = 10
  /\ exists p out msg,
       trace (snd (send_to_discord ascii_upper clock0 always_ack
                     hook_url batch_12_3 w0))
       = [HttpPost hook_url p 10; Print out msg]
       /\ length (embeds p) = 10
       /\ content p = Some (glyph_fire ++ lit " 12 alerts firing | "
                            ++ glyph_check ++ lit " 3 resolved").
Proof.
  pose proof (@X9_batch_size_and_clock ascii_upper clock0 always_ack
                hook_url batch_12_3 w0 hook_url_configured) as H.
  cbv zeta in H. destruct H as [Hticks Hpost].
  split; [exact Hticks|].
  destruct Hpost as (p & out & msg & Htrace & Hlen & Hcontent & _).
  - vm_compute. discriminate.
  - exists p, out, msg. split; [exact Htrace|]. split; [exact Hlen|].
    rewrite Hcontent. reflexivity.
Defined.

(** A body with two alerts the dispatcher does not group. *)
Lemma X14_witness :
  do_POST ascii_upper clock0 always_ack hook_url peer0 request_log0
          (Readable (Webhook (Some [pending_alert; statusless_alert])))
          (mkConn w0 [])
  = (inl tt,
     mkConn
       (mkWorld 0
          [Print Stdout (lit "Received 2 alerts from Alertmanager");
           Print Stdout (peer0 ++ lit " - " ++ request_log0 200)])
       (answer 200 [(lit "status", JString (lit "ok"))])).
Proof.
  apply (@X14_nothing_to_send_is_ok ascii_upper clock0 always_ack
           peer0 request_log0 hook_url
           (Some [pending_alert; statusless_alert]) (mkConn w0 [])).
  - exact hook_url_configured.
  - reflexivity.
Defined.

Example run_post_delivered :
  do_POST ascii_upper clock0 always_ack hook_url peer0 request_log0
          (Readable (Webhook (Some [stamped_alert]))) (mkConn w0 [])
  = (inl tt,
     mkConn
       (mkWorld 1
          [Print Stdout (lit "Received 1 alerts from Alertmanager");
           HttpPost hook_url
             (mkPayload (lit "Hall Monitor Alerts")
                (lit "https://raw.githubusercontent.com/prometheus/prometheus/main/documentation/images/prometheus-logo.svg")
                [mkEmbed (glyph_fire ++ lit " CRITICAL: DiskFull")
                         (lit "Alert DiskFull is firing")
                         0xFF0000
                         [mkField (lit "Component") (lit "system") true;
                          mkField (lit "Severity") (lit "CRITICAL") true;
                          mkField (lit "Details") (lit "Disk is filling") false;
                          mkField (lit "Labels") (lit "instance=db1") false]
                         (lit "2024-05-05T10:00:00Z")]
                (Some (glyph_fire ++ lit " 1 alert firing")))
             10;
           Print Stdout (lit "Successfully sent 1 alerts to Discord");
           Print Stdout (peer0 ++ lit " - " ++ request_log0 200)])
       (answer 200 [(lit "status", JString (lit "ok"))])).
Proof. vm_compute. reflexivity. Qed.

Example run_post_refused :
  snd (do_POST ascii_upper clock0 always_refuse hook_url peer0 request_log0
               (Readable (Webhook (Some [stamped_alert]))) (mkConn w0 []))
  = mkConn
      (mkWorld 1
         [Print Stdout (lit "Received 1 alerts from Alertmanager");
          HttpPost hook_url
            (payload_of [stamped_alert]
               [card_of ascii_upper (clock0 0) stamped_alert])
            10;
          Print Stderr (lit "ERROR sending to Discord: connection refused");
          Print Stdout (peer0 ++ lit " - " ++ request_log0 500)])
      (answer 500 [(lit "status", JString (lit "error"))]).
Proof. vm_compute. reflexivity. Qed.

Example run_post_not_json :
  do_POST ascii_upper clock0 always_ack hook_url peer0 request_log0
          (Readable (Unreadable (lit "Expecting value: line 1 column 1 (char 0)")))
          (mkConn w0 [])
  = (inl tt,
     mkConn
       (mkWorld 0
          [Print Stderr (lit "ERROR processing webhook: Expecting value: line 1 column 1 (char 0)");
           Print Stdout (peer0 ++ lit " - " ++ request_log0 500)])
       (answer 500
          [(lit "status", JString (lit "error"));
           (lit "message",
            JString (lit "Expecting value: line 1 column 1 (char 0)"))])).
Proof. vm_compute. reflexivity. Qed.

Example run_get_health :
  do_GET hook_url peer0 request_log0 (mkConn w0 [])
  = (inl tt,
     mkConn
       (mkWorld 0 [Print Stdout (peer0 ++ lit " - " ++ request_log0 200)])
       (answer 200
          [(lit "status", JString (lit "healthy"));
           (lit "service", JString (lit "Discord Webhook Adapter"));
           (lit "webhook_configured", JBool true)])).
Proof. vm_compute. reflexivity. Qed.
